(** * Flow_Rate_and_Temp: decoding and record assembly

    A shallow embedding of the two serial pipelines of the repository:

    - [Temp]: [read_and_store_temp.py], the polled temperature probe
      (8-byte frames, two big-endian 16-bit magnitudes in tenths of a degree);
    - [Flow]: [read_and_store.py], the line-oriented flow meter
      (timestamp / flow / velocity lines assembled into one record).

    Python floats are IEEE-754 binary64 values: they are modelled by Rocq's
    primitive floats, which are the same format with the same rounding.
    Serial input, the wall clock and the Supabase table are inputs of the
    model; what the programs print and what they hand to the table is
    collected in an output trace. *)

From Stdlib Require Import String Ascii.
From Stdlib Require Import ZArith List Bool Lia Floats Uint63 Permutation.
From Stdlib.Strings Require Import Byte.
Import ListNotations.

Set Warnings "-inexact-float".

(** ** Python numbers *)

Module Py.

(** [float(n)] for a small non-negative int [n]: exact below [2^53]. *)
Definition float_of_int (n : Z) : float := PrimFloat.of_uint63 (Uint63.of_Z n).

(** [n / 10.0] for an int [n]: the int is converted, then divided. *)
Definition div10 (n : Z) : float := PrimFloat.div (float_of_int n) 10%float.

(** [bool(x)] for a float: false exactly for [0.0] and [-0.0]. *)
Definition float_truthy (x : float) : bool := negb (PrimFloat.eqb x 0%float).

(** [lo <= x <= hi], the chained comparison on floats. *)
Definition between (lo hi x : float) : bool :=
  PrimFloat.leb lo x && PrimFloat.leb x hi.

End Py.

(** ** read_and_store_temp.py *)

Module Temp.

Local Open Scope Z_scope.

(** A [bytes]/[bytearray] element is an int in [0, 255]. *)
Definition byte_val (b : byte) : Z := Z.of_N (Byte.to_N b).

(** [frame[k]]; every use below is guarded by a length test or is on an
    8-byte slice, see [slice8_length]. *)
Definition item (frame : list byte) (k : nat) : Z := byte_val (nth k frame x00).

(** [buffer[i:i+8]] *)
Definition slice8 (buffer : list byte) (i : nat) : list byte :=
  firstn 8 (skipn i buffer).

(** [range(len(buffer) - 7)]: empty when the buffer has fewer than 8 bytes. *)
Definition scan_range (buffer : list byte) : list nat :=
  seq 0 (length buffer - 7).

(** [hi << 8 | lo] *)
Definition be16 (hi lo : Z) : Z := Z.lor (Z.shiftl hi 8) lo.

(** [(frame[2] << 8 | frame[3]) / 10.0] and [(frame[4] << 8 | frame[5]) / 10.0] *)
Definition decode_t1 (frame : list byte) : float :=
  Py.div10 (be16 (item frame 2) (item frame 3)).
Definition decode_t2 (frame : list byte) : float :=
  Py.div10 (be16 (item frame 4) (item frame 5)).

(** A row of the [temperature_data] table. *)
Record row := { timestamp : string; t1 : float; t2 : float }.

(** What [insert(...).execute()] does: a response with data, a response
    without, or an exception. *)
Inductive response := Data | Empty | Failure (msg : string).

(** The lines the program prints and the one call it makes to the table. *)
Inductive output :=
| Sent                                    (* [Sent] Command 'A' *)
| Received (n : nat) (chunk : list byte)  (* [Received] / [Raw] *)
| FullBuffer (buffer : list byte)         (* [Debug] Full buffer *)
| ErrLength (n : nat)                     (* [Error] Frame length is not 8 *)
| ErrStart (b : Z)                        (* [Error] Invalid frame start *)
| Decoded (t1 t2 : float) (frame : list byte)  (* [T1] .. [T2] .. | Frame *)
| Candidate (c : list byte)               (* [Debug] 8-byte sequence from 0x02 *)
| ValidFrame (c : list byte)              (* [Debug] Found valid frame *)
| NoCandidate                             (* [Debug] No 8-byte sequence ... *)
| DataToUpload (r : row)                  (* [DEBUG] Data to upload *)
| Insert (r : row)                        (* supabase.table(..).insert(r).execute() *)
| Uploaded (r : row)                      (* [Uploaded] *)
| UploadFailed                            (* [Upload failed] Empty response *)
| SupabaseError (msg : string)            (* [Supabase error] *)
| Skipped (t1 t2 : float)                 (* [DEBUG] Skipped upload ... (out of range) *)
| NoData                                  (* [No data received] *)
| TooManyErrors.                          (* [Error] Too many consecutive errors *)

(** [parse_frame]: prints, returns nothing. *)
Definition parse_frame (frame : list byte) : output :=
  if negb (length frame =? 8)%nat then ErrLength (length frame)
  else if negb (item frame 0 =? 0x02) then ErrStart (item frame 0)
  else Decoded (decode_t1 frame) (decode_t2 frame) frame.

(** [find_frame]: the first window that starts with 0x02 and ends with 0x03,
    with the index just past it; the debug lines of the windows tried. *)
Fixpoint find_frame_from (buffer : list byte) (idxs : list nat)
  : list output * option (list byte * nat) :=
  match idxs with
  | [] => ([], None)
  | i :: rest =>
      if item buffer i =? 0x02 then
        let candidate := slice8 buffer i in
        if item candidate 7 =? 0x03
        then ([Candidate candidate; ValidFrame candidate], Some (candidate, (i + 8)%nat))
        else let '(out, r) := find_frame_from buffer rest in
             (Candidate candidate :: out, r)
      else find_frame_from buffer rest
  end.

Definition find_frame (buffer : list byte) : list output * (option (list byte) * nat) :=
  match find_frame_from buffer (scan_range buffer) with
  | (out, Some (candidate, n)) => (out, (Some candidate, n))
  | ([], None) => ([NoCandidate], (None, 0%nat))
  | (out, None) => (out, (None, 0%nat))
  end.

(** Lines 108-111 of [main]: every window that starts with 0x02 goes to
    [parse_frame]. *)
Definition print_windows (buffer : list byte) : list output :=
  flat_map (fun i => let candidate := slice8 buffer i in
                     if item candidate 0 =? 0x02 then [parse_frame candidate] else [])
           (scan_range buffer).

(** Lines 113-125 of [main]: the loop that fills [t1_to_upload] and
    [t2_to_upload]; [found] is the counter, [idxs] what is left of the range. *)
Fixpoint select_from (buffer : list byte) (idxs : list nat) (found : nat)
  : option (float * float) :=
  match idxs with
  | [] => None
  | i :: rest =>
      let candidate := slice8 buffer i in
      if item candidate 0 =? 0x02 then
        let t1 := decode_t1 candidate in
        let t2 := decode_t2 candidate in
        let found := (found + 1)%nat in
        if (found =? 2)%nat then Some (t1, t2)
        else select_from buffer rest found
      else select_from buffer rest found
  end.

Definition select_upload (buffer : list byte) : option (float * float) :=
  select_from buffer (scan_range buffer) 0.

(** [10 <= t1_to_upload <= 100 and 10 <= t2_to_upload <= 100] *)
Definition in_range (t1 t2 : float) : bool :=
  Py.between 10 100 t1 && Py.between 10 100 t2.

Section Loop.

(** The table: what [execute()] answers to an insert. *)
Variable supabase : row -> response.

(** Lines 126-145 of [main]. *)
Definition upload (now : string) (sel : option (float * float)) : list output :=
  match sel with
  | Some (t1_to_upload, t2_to_upload) =>
      if in_range t1_to_upload t2_to_upload then
        let data_to_upload :=
          {| timestamp := now; t1 := t1_to_upload; t2 := t2_to_upload |} in
        [DataToUpload data_to_upload; Insert data_to_upload] ++
        match supabase data_to_upload with
        | Data => [Uploaded data_to_upload]
        | Empty => [UploadFailed]
        | Failure e => [SupabaseError e]
        end
      else [Skipped t1_to_upload t2_to_upload]
  | None => []
  end.

(** The variables of [main] that live across iterations. *)
Record loop_state := {
  buffer : list byte;
  consecutive_errors : nat;
  last_valid_frame : option (list byte)
}.

Definition initial : loop_state :=
  {| buffer := []; consecutive_errors := 0; last_valid_frame := None |}.

(** [buffer[-32:]] when [len(buffer) > 32] *)
Definition trim (buffer : list byte) : list byte :=
  if (32 <? length buffer)%nat then skipn (length buffer - 32) buffer else buffer.

(** One iteration of [while True]: [chunk] is what [ser.read(32)] returned,
    [now] what the clock reads if a row is built.  The boolean is false when
    the iteration ends in [break]. *)
Definition cycle (now : string) (chunk : list byte) (st : loop_state)
  : loop_state * list output * bool :=
  let '(st', out) :=
    match chunk with
    | _ :: _ =>
        let buffer := buffer st ++ chunk in
        let out := [Received (length chunk) chunk; FullBuffer buffer]
                   ++ print_windows buffer
                   ++ upload now (select_upload buffer) in
        ({| buffer := trim buffer;
            consecutive_errors := consecutive_errors st;
            last_valid_frame := last_valid_frame st |}, out)
    | [] =>
        ({| buffer := buffer st;
            consecutive_errors := consecutive_errors st + 1;
            last_valid_frame := last_valid_frame st |}, [NoData])
    end in
  if (5 <=? consecutive_errors st')%nat
  then (st', Sent :: out ++ [TooManyErrors], false)
  else (st', Sent :: out, true).

(** The loop over the successive reads, as long as they last. *)
Fixpoint cycles (reads : list (string * list byte)) (st : loop_state)
  : loop_state * list output :=
  match reads with
  | [] => (st, [])
  | (now, chunk) :: rest =>
      match cycle now chunk st with
      | (st', out, true) => let '(st'', out') := cycles rest st' in (st'', out ++ out')
      | (st', out, false) => (st', out)
      end
  end.

End Loop.

(** The rows handed to the table in a trace, in order. *)
Definition inserts (out : list output) : list row :=
  flat_map (fun o => match o with Insert r => [r] | _ => [] end) out.

(** The windows the two scans of [main] look at, and the test they apply. *)
Definition windows (buffer : list byte) : list (list byte) :=
  map (slice8 buffer) (scan_range buffer).

Definition starts_with_02 (w : list byte) : bool := item w 0 =? 0x02.

Definition decode (w : list byte) : float * float := (decode_t1 w, decode_t2 w).

(** [all p z n]: [p] holds at [z], [z+1], ..., [z+n-1]. *)
Fixpoint all_from (p : Z -> bool) (z : Z) (n : nat) : bool :=
  match n with
  | O => true
  | S k => p z && all_from p (z + 1) k
  end.

(** The frame of the specification: 8 bytes, 0x02 first and 0x03 last. *)
Definition valid_frame (w : list byte) : bool :=
  (length w =? 8)%nat && (item w 0 =? 0x02) && (item w 7 =? 0x03).

Definition valid_frames (buffer : list byte) : list (list byte) :=
  filter valid_frame (windows buffer).

(** [bcd_to_int] *)
Definition bcd_to_int (bcd_byte : Z) : Z :=
  Z.shiftr bcd_byte 4 * 10 + Z.land bcd_byte 0x0F.

(** [bcd_bytes_to_int] *)
Definition bcd_bytes_to_int (b1 b2 : Z) : Z :=
  Z.shiftr b1 4 * 1000 + Z.land b1 0x0F * 100
  + Z.shiftr b2 4 * 10 + Z.land b2 0x0F.

(** [float(n)] for a small int of either sign. *)
Definition float_of_signed (n : Z) : float :=
  if n <? 0 then PrimFloat.opp (Py.float_of_int (- n)) else Py.float_of_int n.

(** [a / b] on two small non-negative ints: both convert exactly, and the
    quotient is rounded once. *)
Definition truediv (a b : Z) : float :=
  PrimFloat.div (Py.float_of_int a) (Py.float_of_int b).

(** What [parse_temperature] prints. *)
Inductive debug :=
| TooShort (n : nat)                        (* [Error] Frame too short *)
| InvalidStart (b : Z)                      (* [Error] Invalid start byte *)
| RawBcd (d1 d2 d3 d4 : Z)                  (* [Debug] Raw BCD bytes *)
| ParsedBcd (d1 d2 d3 d4 : Z)               (* [Debug] Parsed BCD digits *)
| SignPoint (sign decimal_point : Z)        (* [Debug] sign, decimal_point *)
| ParsedTemperature (t : float) (frame : list byte).  (* [Debug] Parsed temperature *)

(** [parse_temperature]: the display-mode decoding of a frame. *)
Definition parse_temperature (frame : list byte) : list debug * option float :=
  if (length frame <? 8)%nat then ([TooShort (length frame)], None)
  else if negb (item frame 0 =? 0x02) then ([InvalidStart (item frame 0)], None)
  else
    let display_mode := item frame 2 in
    let sign := if negb (Z.land display_mode 0x04 =? 0) then -1 else 1 in
    let decimal_point := Z.land display_mode 0x03 in
    let digit1_raw := item frame 3 in
    let digit2_raw := item frame 4 in
    let digit3_raw := item frame 5 in
    let digit4_raw := item frame 6 in
    let digit1 := bcd_to_int digit1_raw in
    let digit2 := bcd_to_int digit2_raw in
    let digit3 := bcd_to_int digit3_raw in
    let digit4 := bcd_to_int digit4_raw in
    let value := digit1 * 1000 + digit2 * 100 + digit3 * 10 + digit4 in
    let temperature :=
      PrimFloat.mul (float_of_signed sign) (truediv value (10 ^ decimal_point)) in
    ([RawBcd digit1_raw digit2_raw digit3_raw digit4_raw;
      ParsedBcd digit1 digit2 digit3 digit4;
      SignPoint sign decimal_point;
      ParsedTemperature temperature frame],
     Some temperature).

(** The reads of a run of the loop that returned nothing. *)
Definition empty_reads (reads : list (string * list byte)) : nat :=
  length (filter (fun r => match snd r with [] => true | _ :: _ => false end) reads).

End Temp.

(** ** read_and_store.py *)

Module Flow.

(** *** Text *)

Definition text := list ascii.

(** [str.isspace] and the class [\s] of a [str] pattern, on code points
    below 256. *)
Definition is_space (c : ascii) : bool :=
  let n := nat_of_ascii c in
  ((9 <=? n) && (n <=? 13)) || ((28 <=? n) && (n <=? 32))
  || (n =? 133) || (n =? 160).

(** The class [\d], on code points below 256. *)
Definition is_digit (c : ascii) : bool :=
  let n := nat_of_ascii c in (48 <=? n) && (n <=? 57).

(** The class [[\d.]]. *)
Definition is_numeric (c : ascii) : bool := is_digit c || (c =? ".")%char.

Fixpoint lstrip (s : text) : text :=
  match s with
  | c :: r => if is_space c then lstrip r else s
  | [] => []
  end.

Definition rstrip (s : text) : text := rev (lstrip (rev s)).

(** [str.strip()] *)
Definition strip (s : text) : text := rstrip (lstrip s).

(** The longest prefix in a class, and what follows it. *)
Fixpoint span (p : ascii -> bool) (s : text) : text * text :=
  match s with
  | c :: r => if p c then let '(a, b) := span p r in (c :: a, b) else ([], s)
  | [] => ([], [])
  end.

(** What follows a literal prefix, if the text starts with it. *)
Fixpoint literal (lit s : text) : option text :=
  match lit, s with
  | [], _ => Some s
  | a :: lit', c :: s' => if (a =? c)%char then literal lit' s' else None
  | _ :: _, [] => None
  end.

(** Patterns of fixed width: a digit or a given character at each place. *)
Inductive atom := D | L (c : ascii).

(** [re.match] of a fixed-width pattern: the matched prefix. *)
Fixpoint fixed (pat : list atom) (s : text) : option text :=
  match pat, s with
  | [], _ => Some []
  | a :: pat', c :: s' =>
      if match a with D => is_digit c | L l => (l =? c)%char end
      then option_map (cons c) (fixed pat' s')
      else None
  | _ :: _, [] => None
  end.

(** [re.match(r'(\d{2}-\d{2}-\d{2} \d{2}:\d{2}:\d{2})', line)]: group 1. *)
Definition timestamp_match (line : text) : option text :=
  fixed [D; D; L "-"; D; D; L "-"; D; D; L " ";
         D; D; L ":"; D; D; L ":"; D; D] line.

(** [re.match(head + r'\s+([\d.]+)\s+' + tail, line)]: group 1.  The three
    classes [\s], [[\d.]] and the first character of [tail] are disjoint, so
    each [+] can only stop where its longest run stops. *)
Definition numeric_match (head tail : string) (line : text) : option text :=
  match literal (list_ascii_of_string head) line with
  | None => None
  | Some r1 =>
      match span is_space r1 with
      | ([], _) => None
      | (_, r2) =>
          match span is_numeric r2 with
          | ([], _) => None
          | (num, r3) =>
              match span is_space r3 with
              | ([], _) => None
              | (_, r4) =>
                  match literal (list_ascii_of_string tail) r4 with
                  | Some _ => Some num
                  | None => None
                  end
              end
          end
      end
  end.

(** [re.match(r'Flow\s+([\d.]+)\s+l/s', line)] *)
Definition flow_match : text -> option text := numeric_match "Flow" "l/s".

(** [re.match(r'Vel:\s+([\d.]+)\s+m/s', line)] *)
Definition vel_match : text -> option text := numeric_match "Vel:" "m/s".

(** *** Exceptions *)

Inductive exn := ValueError (msg : string).

Inductive result (A : Type) := Ok (a : A) | Raise (e : exn).
Arguments Ok {A} a.
Arguments Raise {A} e.

Definition bind {A B : Type} (r : result A) (k : A -> result B) : result B :=
  match r with
  | Ok a => k a
  | Raise e => Raise e
  end.

Notation "x <- r ;; k" := (bind r (fun x => k))
  (at level 61, r at next level, right associativity).

(** *** [float(text)] on the texts the patterns capture *)

Local Open Scope Z_scope.

Definition digit_val (c : ascii) : Z := Z.of_nat (nat_of_ascii c) - 48.

Definition digits_val (ds : text) : Z :=
  fold_left (fun acc c => 10 * acc + digit_val c) ds 0.

(** [n / d] rounded to an integer, ties to even. *)
Definition round_half_even (n d : Z) : Z :=
  let q := n / d in
  match 2 * (n mod d) ?= d with
  | Lt => q
  | Gt => q + 1
  | Eq => if Z.even q then q else q + 1
  end.

(** The fraction [(n / d) / 2^e]. *)
Definition scaled (n d e : Z) : Z * Z :=
  if 0 <=? e then (n, d * 2 ^ e) else (n * 2 ^ (- e), d).

(** The binary64 value nearest to [n / d] ([n >= 0], [d > 0]), ties to even:
    the conversion [float] makes of a decimal text. *)
Definition binary64_of_ratio (n d : Z) : float :=
  if n =? 0 then 0%float
  else
    let e0 := Z.log2 n - Z.log2 d in
    let '(a, b) := scaled n d e0 in
    let e := if a <? b then e0 - 1 else e0 in
    let q := Z.max (e - 52) (-1074) in
    let '(a', b') := scaled n d q in
    Z.ldexp (Py.float_of_int (round_half_even a' b')) q.

(** [float(t)] for a text over [[\d.]]: digits with at most one point and at
    least one digit; anything else is a [ValueError]. *)
Definition float_of_text (t : text) : result float :=
  let bad := Raise (ValueError ("could not convert string to float: '"
                                ++ string_of_list_ascii t ++ "'")) in
  let '(int_part, r) := span is_digit t in
  match r with
  | [] =>
      match int_part with
      | [] => bad
      | _ => Ok (binary64_of_ratio (digits_val int_part) 1)
      end
  | c :: frac =>
      if (c =? ".")%char then
        let '(frac_part, r') := span is_digit frac in
        match r', int_part ++ frac_part with
        | [], _ :: _ =>
            Ok (binary64_of_ratio (digits_val (int_part ++ frac_part))
                                  (10 ^ Z.of_nat (length frac_part)))
        | _, _ => bad
        end
      else bad
  end.

(** *** [datetime.strptime(g, '%y-%m-%d %H:%M:%S')], [localize], [isoformat] *)

Local Close Scope Z_scope.

Record datetime := {
  year : nat; month : nat; day : nat;
  hour : nat; minute : nat; second : nat
}.

Definition two (a b : ascii) : nat :=
  10 * (nat_of_ascii a - 48) + (nat_of_ascii b - 48).

Definition is_leap (y : nat) : bool :=
  (y mod 4 =? 0) && (negb (y mod 100 =? 0) || (y mod 400 =? 0)).

Definition days_in_month (y m : nat) : nat :=
  match m with
  | 2 => if is_leap y then 29 else 28
  | 4 | 6 | 9 | 11 => 30
  | _ => 31
  end.

(** On the 17 characters the timestamp pattern captures.  The directive
    patterns of [strptime] admit months 01-12, days 01-31, hours 00-23,
    minutes 00-59 and seconds 00-61; the [datetime] constructor then refuses
    a day the month does not have and a second above 59.  [%y] maps 00-68 to
    2000-2068 and 69-99 to 1969-1999. *)
Definition no_match (g : text) : exn :=
  ValueError ("time data '" ++ string_of_list_ascii g
              ++ "' does not match format '%y-%m-%d %H:%M:%S'").

Definition strptime (g : text) : result datetime :=
  match g with
  | [y1; y2; _; m1; m2; _; d1; d2; _; H1; H2; _; M1; M2; _; S1; S2] =>
      let yy := two y1 y2 in
      let y := if yy <=? 68 then 2000 + yy else 1900 + yy in
      let m := two m1 m2 in
      let d := two d1 d2 in
      let H := two H1 H2 in
      let M := two M1 M2 in
      let S := two S1 S2 in
      if (1 <=? m) && (m <=? 12) && (1 <=? d) && (d <=? 31)
         && (H <=? 23) && (M <=? 59) && (S <=? 61)
      then
        if negb (d <=? days_in_month y m)
        then Raise (ValueError "day is out of range for month")
        else if negb (S <=? 59)
        then Raise (ValueError "second must be in 0..59")
        else Ok {| year := y; month := m; day := d;
                   hour := H; minute := M; second := S |}
      else Raise (no_match g)
  | _ => Raise (no_match g)
  end.

Definition digit_char (n : nat) : ascii := ascii_of_nat (48 + n mod 10).

Definition pad2 (n : nat) : string :=
  String (digit_char (n / 10)) (String (digit_char n) EmptyString).

Definition pad4 (n : nat) : string :=
  String (digit_char (n / 1000)) (String (digit_char (n / 100)) (pad2 n)).

Local Open Scope string_scope.

(** [bangkok_tz.localize(naive_dt).isoformat()]: Asia/Bangkok is UTC+07:00,
    without daylight saving, over all the years [%y] can give. *)
Definition localized_isoformat (dt : datetime) : string :=
  pad4 (year dt) ++ "-" ++ pad2 (month dt) ++ "-" ++ pad2 (day dt) ++ "T"
  ++ pad2 (hour dt) ++ ":" ++ pad2 (minute dt) ++ ":" ++ pad2 (second dt)
  ++ "+07:00".

(** *** The collector *)

(** [self.current_record], a dict with the three keys. *)
Record record := {
  timestamp : option string;
  flow : option float;
  velocity : option float
}.

Definition empty_record : record :=
  {| timestamp := None; flow := None; velocity := None |}.

(** [parse_data_line]: the new accumulator and the value returned, or the
    exception raised (the accumulator is then as it was). *)
Definition parse_data_line (line : string) (current_record : record)
  : result (bool * record) :=
  let line := strip (list_ascii_of_string line) in
  match timestamp_match line with
  | Some g =>
      naive_dt <- strptime g ;;
      Ok (false, {| timestamp := Some (localized_isoformat naive_dt);
                    flow := flow current_record;
                    velocity := velocity current_record |})
  | None =>
      match flow_match line with
      | Some g =>
          f <- float_of_text g ;;
          Ok (false, {| timestamp := timestamp current_record;
                        flow := Some f;
                        velocity := velocity current_record |})
      | None =>
          match vel_match line with
          | Some g =>
              v <- float_of_text g ;;
              Ok (true, {| timestamp := timestamp current_record;
                           flow := flow current_record;
                           velocity := Some v |})
          | None => Ok (false, current_record)
          end
      end
  end.

(** Truth value of a dict value: [None], [''] and [0.0] are false. *)
Definition str_truthy (o : option string) : bool :=
  match o with
  | Some s => negb (String.eqb s "")
  | None => false
  end.

Definition num_truthy (o : option float) : bool :=
  match o with
  | Some x => Py.float_truthy x
  | None => false
  end.

(** [all(self.current_record.values())] *)
Definition all_values (r : record) : bool :=
  str_truthy (timestamp r) && num_truthy (flow r) && num_truthy (velocity r).

(** A row handed to the [flow_data] table; a [None] value would go as null. *)
Record row := {
  row_timestamp : string;
  row_flow : option float;
  row_velocity : option float
}.

Inductive response := Data | Empty | Failure (msg : string).

Inductive output :=
| Insert (r : row)                (* supabase.table('flow_data').insert(r).execute() *)
| Stored (r : row)                (* Stored: ... | Flow: ... | Vel: ... *)
| StoreFailed                     (* Failed to store record - empty response *)
| SupabaseError (msg : string)    (* Supabase error: ... *)
| SerialReadError (msg : string)  (* Serial read error: ... *)
| ShuttingDown                    (* Shutting down gracefully... *)
| Stopped.                        (* Flowmeter collector stopped. *)

(** What is outside the collector: how often the clock was read, and what
    was printed and sent so far. *)
Record world := { reads : nat; trace : list output }.

Definition emit (w : world) (out : list output) : world :=
  {| reads := reads w; trace := trace w ++ out |}.

(** The rows handed to the table in a trace, in order. *)
Definition rows (out : list output) : list row :=
  flat_map (fun o => match o with Insert r => [r] | _ => [] end) out.

Section Collector.

(** [datetime.now(timezone.utc).isoformat()] at the n-th reading. *)
Variable utc_now : nat -> string.

(** The table: what [execute()] answers to an insert. *)
Variable supabase : row -> response.

(** [store_record]: every exception is caught and printed. *)
Definition store_record (current_record : record) (w : world) : record * world :=
  let now := utc_now (reads w) in
  let current_record :=
    {| timestamp := Some now;
       flow := flow current_record;
       velocity := velocity current_record |} in
  let r := {| row_timestamp := now;
              row_flow := flow current_record;
              row_velocity := velocity current_record |} in
  let printed :=
    match supabase r with
    | Data =>
        match flow current_record, velocity current_record with
        | Some _, Some _ => Stored r
        | _, _ => SupabaseError "unsupported format string passed to NoneType.__format__"
        end
    | Empty => StoreFailed
    | Failure e => SupabaseError e
    end in
  (current_record,
   {| reads := S (reads w); trace := trace w ++ [Insert r; printed] |}).

(** The collector's own state. *)
Record collector := {
  buffer_size : nat;
  ring_buffer : list string;
  current_record : record
}.

(** [deque.append] with [maxlen]: the oldest lines fall out. *)
Definition deque_append (maxlen : nat) (q : list string) (x : string) : list string :=
  skipn (length (q ++ [x]) - maxlen) (q ++ [x]).

(** The loop of [process_buffer] on what the ring buffer holds: the pending
    exception if a line raised, what is left in the ring buffer, the
    accumulator and the world. *)
Fixpoint process_lines (ring : list string) (cur : record) (w : world)
  : option exn * list string * record * world :=
  match ring with
  | [] => (None, [], cur, w)
  | line :: ring =>
      match parse_data_line line cur with
      | Raise e => (Some e, ring, cur, w)
      | Ok (complete, cur) =>
          if complete && all_values cur then
            let '(_, w) := store_record cur w in
            process_lines ring empty_record w
          else process_lines ring cur w
      end
  end.

(** [process_buffer] *)
Definition process_buffer (c : collector) (w : world)
  : option exn * collector * world :=
  let '(e, ring, cur, w) := process_lines (ring_buffer c) (current_record c) w in
  (e, {| buffer_size := buffer_size c; ring_buffer := ring; current_record := cur |}, w).

(** What one pass of the loop of [run] finds on the serial port. *)
Inductive serial_event :=
| Idle                        (* in_waiting == 0 *)
| Line (line : string)        (* readline().decode('ascii', errors='ignore') *)
| ReadError (msg : string).   (* an exception while reading *)

Definition receive (ev : serial_event) (c : collector) (w : world) : collector * world :=
  match ev with
  | Idle => (c, w)
  | Line line =>
      match strip (list_ascii_of_string line) with
      | [] => (c, w)
      | _ :: _ =>
          ({| buffer_size := buffer_size c;
              ring_buffer := deque_append (buffer_size c) (ring_buffer c) line;
              current_record := current_record c |}, w)
      end
  | ReadError e => (c, emit w [SerialReadError e])
  end.

(** The [finally] clause of [run], entered with the exception in flight. *)
Definition finally (pending : option exn) (c : collector) (w : world)
  : option exn * collector * world :=
  match process_buffer c w with
  | (Some e, c, w) => (Some e, c, w)
  | (None, c, w) => (pending, c, emit w [Stopped])
  end.

(** The loop of [run] once the port is open.  The passes are those of
    [events]; Ctrl+C arrives when they are over.  The result holds the
    exception that leaves [run], if one does: nothing above [run] catches
    it. *)
Fixpoint run (events : list serial_event) (c : collector) (w : world)
  : option exn * collector * world :=
  match events with
  | [] => finally None c (emit w [ShuttingDown])
  | ev :: events =>
      let '(c, w) := receive ev c w in
      match process_buffer c w with
      | (Some e, c, w) => finally (Some e) c w
      | (None, c, w) => run events c w
      end
  end.

End Collector.

(** A collector as [__init__] leaves it. *)
Definition new_collector (buffer_size : nat) : collector :=
  {| buffer_size := buffer_size; ring_buffer := []; current_record := empty_record |}.

Definition new_world : world := {| reads := 0; trace := [] |}.

(** What a line is to [parse_data_line]. *)
Inductive parsed :=
| Timestamp (iso : string)
| FlowValue (f : float)
| Velocity (v : float)
| Other.

Definition classify (line : string) : result parsed :=
  let line := strip (list_ascii_of_string line) in
  match timestamp_match line with
  | Some g => naive_dt <- strptime g ;; Ok (Timestamp (localized_isoformat naive_dt))
  | None =>
      match flow_match line with
      | Some g => f <- float_of_text g ;; Ok (FlowValue f)
      | None =>
          match vel_match line with
          | Some g => v <- float_of_text g ;; Ok (Velocity v)
          | None => Ok Other
          end
      end
  end.

(** The accumulator after a line of each kind. *)
Definition apply_parsed (p : parsed) (cur : record) : bool * record :=
  match p with
  | Timestamp iso =>
      (false, {| timestamp := Some iso; flow := flow cur; velocity := velocity cur |})
  | FlowValue f =>
      (false, {| timestamp := timestamp cur; flow := Some f; velocity := velocity cur |})
  | Velocity v =>
      (true, {| timestamp := timestamp cur; flow := flow cur; velocity := Some v |})
  | Other => (false, cur)
  end.

(** What [connect_serial] prints, and its waits. *)
Inductive connect_output :=
| Connected                                   (* Connected to ... at ... baud *)
| AttemptFailed (attempt : nat)               (* Attempt n failed, retrying ... *)
| Slept (seconds : nat)                       (* time.sleep(retry_delay) *)
| ConnectFailed (attempts : nat) (msg : string).  (* Failed to connect ... *)

Definition max_retries : nat := 3.
Definition retry_delay : nat := 5.

Section Connect.

(** [serial.Serial(...)] at each attempt: the port opens, or a
    [SerialException] with its message. *)
Variable open_port : nat -> option string.

(** The loop of [connect_serial] over the attempts left. *)
Fixpoint connect_from (attempts : list nat) : bool * list connect_output :=
  match attempts with
  | [] => (false, [])
  | attempt :: rest =>
      match open_port attempt with
      | None => (true, [Connected])
      | Some e =>
          if (attempt <? max_retries - 1)%nat then
            let '(r, out) := connect_from rest in
            (r, AttemptFailed (attempt + 1)%nat :: Slept retry_delay :: out)
          else (false, [ConnectFailed max_retries e])
      end
  end.

(** [connect_serial] *)
Definition connect_serial : bool * list connect_output :=
  connect_from (seq 0 max_retries).

End Connect.

(** The seconds [connect_serial] spends in [time.sleep]. *)
Definition slept (out : list connect_output) : nat :=
  list_sum (map (fun o => match o with Slept n => n | _ => 0 end) out).

End Flow.

(** ** Bytes and 16-bit magnitudes *)

Section Be16.

Local Open Scope Z_scope.

Lemma byte_val_range (b : byte) : 0 <= Temp.byte_val b < 256.
Proof.
  unfold Temp.byte_val. pose proof (Byte.to_N_bounded b) as Hb. lia.
Qed.

Lemma low_bits_above (lo n : Z) : 0 <= lo < 256 -> 8 <= n -> Z.testbit lo n = false.
Proof.
  intros Hlo Hn. destruct (Z.eq_dec lo 0) as [->|Hnz].
  - apply Z.testbit_0_l.
  - apply Z.bits_above_log2; [lia|].
    assert (Z.log2 lo < 8) by (apply Z.log2_lt_pow2; simpl; lia). lia.
Qed.

Lemma be16_arith (hi lo : Z) : 0 <= lo < 256 -> Temp.be16 hi lo = hi * 256 + lo.
Proof.
  intros Hlo. unfold Temp.be16.
  rewrite Z.shiftl_mul_pow2 by lia. change (2 ^ 8) with 256.
  assert (Hdisj : Z.land (hi * 256) lo = 0).
  { apply Z.bits_inj'. intros n Hn. rewrite Z.land_spec, Z.bits_0.
    destruct (Z_lt_le_dec n 8) as [Hlt|Hge].
    - replace (hi * 256) with (hi * 2 ^ 8) by reflexivity.
      rewrite Z.mul_pow2_bits_low by lia. reflexivity.
    - rewrite (low_bits_above lo n) by lia. apply andb_false_r. }
  rewrite <- Z.lxor_lor by exact Hdisj.
  symmetry. apply Z.add_nocarry_lxor. exact Hdisj.
Qed.

Lemma be16_bytes (hi lo : byte) :
  Temp.be16 (Temp.byte_val hi) (Temp.byte_val lo)
  = Temp.byte_val hi * 256 + Temp.byte_val lo.
Proof. apply be16_arith, byte_val_range. Qed.

End Be16.

(** ** C2: decoding of the two magnitudes *)

(** C2, as stated, fails at its own example: the bytes 0x01, 0x64 are the
    magnitude 356, and 356 / 10.0 is not 36.4. *)
Lemma C2_example_is_not_36_4 :
  Temp.decode_t1 [x02; x00; x01; x64; x00; x00; x00; x03] <> 36.4%float.
Proof.
  intro H.
  pose proof (f_equal (fun x => PrimFloat.eqb x 36.4%float) H) as E.
  vm_compute in E. discriminate E.
Qed.

(** C2 (amended): on every 8-byte frame that starts with 0x02, both
    [parse_frame] and the upload scan decode
    t1 = (frame[2]*256 + frame[3]) / 10.0 and
    t2 = (frame[4]*256 + frame[5]) / 10.0; for the bytes 0x01, 0x64 this is
    356 / 10.0 = 35.6. *)
Theorem C2_decoding_divides_by_ten (b1 b2 b3 b4 b5 b6 b7 : byte) :
  let frame := [x02; b1; b2; b3; b4; b5; b6; b7] in
  let t1 := Py.div10 (Temp.byte_val b2 * 256 + Temp.byte_val b3)%Z in
  let t2 := Py.div10 (Temp.byte_val b4 * 256 + Temp.byte_val b5)%Z in
  Temp.parse_frame frame = Temp.Decoded t1 t2 frame
  /\ Temp.decode_t1 frame = t1
  /\ Temp.decode_t2 frame = t2
  /\ Temp.decode_t1 [x02; x00; x01; x64; x00; x00; x00; x03] = 35.6%float.
Proof.
  cbv zeta.
  assert (H1 : Temp.decode_t1 [x02; b1; b2; b3; b4; b5; b6; b7]
               = Py.div10 (Temp.byte_val b2 * 256 + Temp.byte_val b3)%Z).
  { unfold Temp.decode_t1, Temp.item. cbn [nth]. now rewrite be16_bytes. }
  assert (H2 : Temp.decode_t2 [x02; b1; b2; b3; b4; b5; b6; b7]
               = Py.div10 (Temp.byte_val b4 * 256 + Temp.byte_val b5)%Z).
  { unfold Temp.decode_t2, Temp.item. cbn [nth]. now rewrite be16_bytes. }
  split; [|split; [exact H1|split; [exact H2|reflexivity]]].
  unfold Temp.parse_frame. cbn [length Nat.eqb negb].
  change (Temp.item [x02; b1; b2; b3; b4; b5; b6; b7] 0 =? 2)%Z with true.
  cbn [negb]. now rewrite H1, H2.
Qed.

(** ** The scans of the polling loop *)

Section Scan.

Local Open Scope Z_scope.

Lemma slice8_length (buffer : list byte) (i : nat) :
  In i (Temp.scan_range buffer) -> length (Temp.slice8 buffer i) = 8%nat.
Proof.
  unfold Temp.scan_range, Temp.slice8. intros Hi. apply in_seq in Hi.
  rewrite length_firstn, length_skipn. lia.
Qed.

(** What lines 113-125 compute: the second window that starts with 0x02. *)
Lemma select_from_nth (buffer : list byte) (idxs : list nat) (found : nat) :
  (found <= 1)%nat ->
  Temp.select_from buffer idxs found
  = option_map Temp.decode
      (nth_error (filter Temp.starts_with_02 (map (Temp.slice8 buffer) idxs))
                 (1 - found)).
Proof.
  revert found. induction idxs as [|i rest IH]; intros found Hf; cbn [Temp.select_from map filter].
  - now destruct (1 - found)%nat.
  - unfold Temp.starts_with_02 at 1.
    destruct (Temp.item (Temp.slice8 buffer i) 0 =? 2) eqn:E.
    + destruct found as [|[|n]]; [| |lia].
      * cbn. rewrite (IH 1%nat) by lia. reflexivity.
      * reflexivity.
    + apply IH, Hf.
Qed.

Lemma select_upload_second_start (buffer : list byte) :
  Temp.select_upload buffer
  = option_map Temp.decode
      (nth_error (filter Temp.starts_with_02 (Temp.windows buffer)) 1).
Proof. unfold Temp.select_upload, Temp.windows. now rewrite select_from_nth by lia. Qed.

(** Where every window that starts with 0x02 also ends with 0x03, the scan
    selects the second valid frame. *)
Lemma select_upload_when_synchronised (buffer : list byte) :
  (forall w, In w (Temp.windows buffer) ->
             Temp.starts_with_02 w = true -> Temp.item w 7 = 3) ->
  Temp.select_upload buffer
  = option_map Temp.decode (nth_error (Temp.valid_frames buffer) 1).
Proof.
  intros Hsync. rewrite select_upload_second_start. unfold Temp.valid_frames.
  do 2 f_equal. apply filter_ext_in. intros w Hw.
  assert (Hlen : length w = 8%nat).
  { unfold Temp.windows in Hw. apply in_map_iff in Hw as (i & <- & Hi).
    now apply slice8_length. }
  unfold Temp.valid_frame. rewrite Hlen. cbn [Nat.eqb andb].
  fold (Temp.starts_with_02 w).
  destruct (Temp.starts_with_02 w) eqn:E; [|reflexivity].
  rewrite (Hsync w Hw E). reflexivity.
Qed.

(** [parse_frame] decodes exactly the 8-byte sequences that start with 0x02. *)
Lemma parse_frame_decodes_iff (frame : list byte) :
  (exists a b, Temp.parse_frame frame = Temp.Decoded a b frame)
  <-> length frame = 8%nat /\ Temp.item frame 0 = 2.
Proof.
  unfold Temp.parse_frame.
  destruct (length frame =? 8)%nat eqn:El; cbn [negb].
  - apply Nat.eqb_eq in El.
    destruct (Temp.item frame 0 =? 2) eqn:E0; cbn [negb].
    + apply Z.eqb_eq in E0. split; [tauto|]. intros _. eauto.
    + apply Z.eqb_neq in E0. split; [intros (a & b & H); discriminate H | tauto].
  - apply Nat.eqb_neq in El. split; [intros (a & b & H); discriminate H | tauto].
Qed.

Lemma inserts_app (a b : list Temp.output) :
  Temp.inserts (a ++ b) = Temp.inserts a ++ Temp.inserts b.
Proof. unfold Temp.inserts. apply flat_map_app. Qed.

Lemma inserts_parse_frame (frame : list byte) :
  Temp.inserts [Temp.parse_frame frame] = [].
Proof.
  unfold Temp.parse_frame.
  destruct (negb _); [reflexivity|]. destruct (negb _); reflexivity.
Qed.

Lemma inserts_print_windows (buffer : list byte) :
  Temp.inserts (Temp.print_windows buffer) = [].
Proof.
  unfold Temp.print_windows.
  induction (Temp.scan_range buffer) as [|i rest IH]; [reflexivity|].
  cbn [flat_map]. rewrite inserts_app, IH, app_nil_r.
  destruct (Temp.item _ 0 =? 2); [apply inserts_parse_frame|reflexivity].
Qed.

Lemma trim_length (buffer : list byte) : (length (Temp.trim buffer) <= 32)%nat.
Proof.
  unfold Temp.trim. destruct (32 <? length buffer)%nat eqn:E.
  - apply Nat.ltb_lt in E. rewrite length_skipn. lia.
  - apply Nat.ltb_ge in E. exact E.
Qed.

Lemma all_from_spec (p : Z -> bool) (n : nat) :
  forall z, Temp.all_from p z n = true ->
  forall k, z <= k < z + Z.of_nat n -> p k = true.
Proof.
  induction n as [|n IH]; intros z H k Hk; [lia|].
  cbn [Temp.all_from] in H. apply andb_true_iff in H as [Hz Hrest].
  destruct (Z.eq_dec k z) as [->|Hne]; [exact Hz|].
  apply (IH (z + 1)); [exact Hrest|lia].
Qed.

(** The range test on the decoded float is a test on the raw magnitude:
    checked on each of the 65536 magnitudes two bytes can form. *)
Lemma between_raw (raw : Z) :
  0 <= raw < 65536 ->
  Py.between 10 100 (Py.div10 raw) = (100 <=? raw) && (raw <=? 1000).
Proof.
  intros Hr.
  assert (H : Temp.all_from
                (fun n => Bool.eqb (Py.between 10 100 (Py.div10 n))
                                   ((100 <=? n) && (n <=? 1000)))
                0 (Z.to_nat 65536) = true) by (vm_compute; reflexivity).
  apply Bool.eqb_prop.
  apply (all_from_spec _ _ _ H). lia.
Qed.

(** The rows a cycle hands to the table are those of its upload step. *)
Lemma upload_inserts (supabase : Temp.row -> Temp.response) (now : string)
      (sel : option (float * float)) :
  Temp.inserts (Temp.upload supabase now sel)
  = match sel with
    | Some (a, b) =>
        if Temp.in_range a b
        then [{| Temp.timestamp := now; Temp.t1 := a; Temp.t2 := b |}]
        else []
    | None => []
    end.
Proof.
  destruct sel as [[a b]|]; [|reflexivity]. unfold Temp.upload.
  destruct (Temp.in_range a b); [|reflexivity].
  destruct (supabase _); reflexivity.
Qed.

Lemma cycle_output (supabase : Temp.row -> Temp.response) (now : string)
      (c : byte) (chunk : list byte) (st : Temp.loop_state) :
  exists post,
    snd (fst (Temp.cycle supabase now (c :: chunk) st))
    = Temp.Sent :: Temp.Received (length (c :: chunk)) (c :: chunk)
      :: Temp.FullBuffer (Temp.buffer st ++ c :: chunk)
      :: Temp.print_windows (Temp.buffer st ++ c :: chunk)
      ++ Temp.upload supabase now (Temp.select_upload (Temp.buffer st ++ c :: chunk))
      ++ post
    /\ Temp.inserts post = [].
Proof.
  unfold Temp.cycle. cbn [Temp.consecutive_errors].
  destruct (5 <=? Temp.consecutive_errors st)%nat; cbn [fst snd].
  - exists [Temp.TooManyErrors]. split; [|reflexivity].
    cbn [app]. now rewrite <- !app_assoc.
  - exists []. split; [|reflexivity]. cbn [app]. now rewrite app_nil_r.
Qed.

Lemma cycle_inserts (supabase : Temp.row -> Temp.response) (now : string)
      (chunk : list byte) (st : Temp.loop_state) :
  chunk <> [] ->
  Temp.inserts (snd (fst (Temp.cycle supabase now chunk st)))
  = Temp.inserts (Temp.upload supabase now (Temp.select_upload (Temp.buffer st ++ chunk))).
Proof.
  destruct chunk as [|c chunk]; [congruence|]. intros _.
  destruct (cycle_output supabase now c chunk st) as (post & -> & Hpost).
  change (Temp.inserts (?a :: ?b :: ?c :: ?l)) with (Temp.inserts l).
  now rewrite !inserts_app, inserts_print_windows, Hpost, app_nil_r.
Qed.

End Scan.

(** ** C1: which frame is uploaded *)

(** C1 (code evaluated where it departs from the claim).  The upload scan
    counts every window that starts with 0x02, whatever its last byte.
    - A 9-byte read with no valid frame at all (no window ends with 0x03):
      the second window is selected and the row (50.0, 50.0) is inserted.
    - Two valid frames, (60.0, 50.0) then (20.0, 20.0): the magnitude 0x0258
      of the first puts a 0x02 at its byte 2, the window that starts there is
      counted as the second, and (50.0, 0.3) is selected and skipped; the
      second valid frame is never uploaded. *)
Theorem C1_second_window_is_not_second_valid_frame
  (supabase : Temp.row -> Temp.response) (now : string) :
  let noise := [x02; x02; x00; x01; xf4; x01; xf4; x00; x00] in
  let frames := [x02; x00; x02; x58; x01; xf4; x00; x03;
                 x02; x00; x00; xc8; x00; xc8; x00; x03] in
  Temp.valid_frames noise = []
  /\ Temp.inserts (snd (fst (Temp.cycle supabase now noise Temp.initial)))
     = [{| Temp.timestamp := now; Temp.t1 := 50; Temp.t2 := 50 |}]
  /\ map Temp.decode (Temp.valid_frames frames) = [(60, 50); (20, 20)]%float
  /\ Temp.select_upload frames = Some (50, 0.3)%float
  /\ Temp.inserts (snd (fst (Temp.cycle supabase now frames Temp.initial))) = []
  /\ In (Temp.Skipped 50 0.3) (snd (fst (Temp.cycle supabase now frames Temp.initial))).
Proof.
  cbv zeta. split; [reflexivity|].
  split; [|split; [reflexivity|split; [reflexivity|split]]].
  - rewrite cycle_inserts by discriminate. now rewrite upload_inserts.
  - rewrite cycle_inserts by discriminate. now rewrite upload_inserts.
  - vm_compute. do 6 right. left. reflexivity.
Qed.

(** ** C3: which windows are decoded *)

(** C3 (code evaluated where it departs from the claim).  The 8-byte window
    [02 00 01 F4 01 F4 00 FF] starts with 0x02 and does not end with 0x03:
    it is not a valid frame, [find_frame] passes over it, yet [parse_frame]
    decodes it as (50.0, 50.0) and so does the scan of the polling loop. *)
Theorem C3_window_without_end_marker_is_decoded :
  let w := [x02; x00; x01; xf4; x01; xf4; x00; xff] in
  Temp.valid_frame w = false
  /\ snd (Temp.find_frame w) = (None, 0%nat)
  /\ Temp.parse_frame w = Temp.Decoded 50 50 w
  /\ Temp.print_windows w = [Temp.Decoded 50 50 w].
Proof. cbv zeta. repeat split; reflexivity. Qed.

(** ** C6: the range check before upload *)

(** C6: in a cycle that selects (t1, t2), the table receives exactly the one
    row (now, t1, t2) when 10 <= t1 <= 100 and 10 <= t2 <= 100, and receives
    nothing otherwise, in which case the skip is printed with both values;
    (105.3, 50.0) is rejected, (50.0, 99.9) is accepted, and so are the
    bounds 10 and 100 themselves. *)
Theorem C6_upload_iff_both_in_range
  (supabase : Temp.row -> Temp.response) (now : string)
  (chunk : list byte) (st : Temp.loop_state) (t1 t2 : float) :
  chunk <> [] ->
  Temp.select_upload (Temp.buffer st ++ chunk) = Some (t1, t2) ->
  let out := snd (fst (Temp.cycle supabase now chunk st)) in
  let r := {| Temp.timestamp := now; Temp.t1 := t1; Temp.t2 := t2 |} in
  (Temp.inserts out = [r] <->
     (Py.between 10 100 t1 = true /\ Py.between 10 100 t2 = true))
  /\ (Temp.inserts out = [] <->
     ~ (Py.between 10 100 t1 = true /\ Py.between 10 100 t2 = true))
  /\ (Temp.inserts out = [] -> In (Temp.Skipped t1 t2) out)
  /\ Temp.in_range 105.3 50.0 = false
  /\ Temp.in_range 50.0 99.9 = true
  /\ Temp.in_range 10 100 = true.
Proof.
  intros Hne Hsel. cbv zeta.
  assert (Hskip : Temp.in_range t1 t2 = false ->
                  In (Temp.Skipped t1 t2) (snd (fst (Temp.cycle supabase now chunk st)))).
  { intros Er. destruct chunk as [|c chunk]; [congruence|].
    destruct (cycle_output supabase now c chunk st) as (post & -> & _).
    rewrite Hsel. unfold Temp.upload. rewrite Er.
    do 3 right. apply in_or_app. right. left. reflexivity. }
  rewrite (cycle_inserts supabase now chunk st Hne), Hsel, upload_inserts.
  rewrite <- andb_true_iff. fold (Temp.in_range t1 t2).
  assert (E1 : Temp.in_range 105.3 50.0 = false) by reflexivity.
  assert (E2 : Temp.in_range 50.0 99.9 = true) by reflexivity.
  assert (E3 : Temp.in_range 10 100 = true) by reflexivity.
  destruct (Temp.in_range t1 t2) eqn:Er.
  - intuition (try discriminate; congruence).
  - intuition (try discriminate; congruence).
Qed.

(** C6 at a concrete cycle: one read of the two frames (20.0, 20.0) and
    (50.0, 99.9) into an empty buffer. *)
Lemma C6_upload_iff_both_in_range_witness :
  let chunk := [x02; x00; x00; xc8; x00; xc8; x00; x03;
                x02; x00; x01; xf4; x03; xe7; x00; x03] in
  chunk <> []
  /\ Temp.select_upload (Temp.buffer Temp.initial ++ chunk) = Some (50, 99.9)%float
  /\ Temp.inserts (snd (fst (Temp.cycle (fun _ => Temp.Data) "now" chunk Temp.initial)))
     = [{| Temp.timestamp := "now"; Temp.t1 := 50; Temp.t2 := 99.9 |}].
Proof.
  cbv zeta. split; [discriminate|]. split; [reflexivity|].
  apply (C6_upload_iff_both_in_range (fun _ => Temp.Data) "now" _ Temp.initial).
  - discriminate.
  - reflexivity.
  - split; reflexivity.
Defined.

(** ** C8: the retained buffer is bounded *)

Lemma cycle_buffer_bound
  (supabase : Temp.row -> Temp.response) (now : string)
  (chunk : list byte) (st : Temp.loop_state) :
  (chunk <> [] \/ length (Temp.buffer st) <= 32)%nat ->
  (length (Temp.buffer (fst (fst (Temp.cycle supabase now chunk st)))) <= 32)%nat.
Proof.
  intros H. unfold Temp.cycle. destruct chunk as [|c chunk].
  - destruct H as [H|H]; [congruence|].
    cbn [Temp.consecutive_errors].
    destruct (5 <=? _)%nat; exact H.
  - cbn [Temp.consecutive_errors].
    destruct (5 <=? _)%nat; apply trim_length.
Qed.

(** C8: a cycle that receives bytes leaves at most 32 bytes in the buffer,
    whatever the buffer held and however many bytes arrived; a cycle that
    receives nothing leaves the buffer as it was; so the bound of 32 is
    preserved by every cycle and holds after any sequence of cycles from the
    empty buffer the loop starts with. *)
Theorem C8_buffer_never_exceeds_32 (supabase : Temp.row -> Temp.response) :
  (forall now chunk st, chunk <> [] ->
     (length (Temp.buffer (fst (fst (Temp.cycle supabase now chunk st)))) <= 32)%nat)
  /\ (forall now chunk st, (length (Temp.buffer st) <= 32)%nat ->
     (length (Temp.buffer (fst (fst (Temp.cycle supabase now chunk st)))) <= 32)%nat)
  /\ (forall reads st, (length (Temp.buffer st) <= 32)%nat ->
     (length (Temp.buffer (fst (Temp.cycles supabase reads st))) <= 32)%nat)
  /\ (forall reads,
     (length (Temp.buffer (fst (Temp.cycles supabase reads Temp.initial))) <= 32)%nat).
Proof.
  assert (Hcycles : forall reads st, (length (Temp.buffer st) <= 32)%nat ->
     (length (Temp.buffer (fst (Temp.cycles supabase reads st))) <= 32)%nat).
  { induction reads as [|[now chunk] rest IH]; intros st Hst; cbn [Temp.cycles].
    - exact Hst.
    - pose proof (cycle_buffer_bound supabase now chunk st (or_intror Hst)) as Hc.
      destruct (Temp.cycle supabase now chunk st) as [[st' out] [|]]; cbn [fst] in Hc.
      + specialize (IH st' Hc).
        destruct (Temp.cycles supabase rest st') as [st'' out']. exact IH.
      + exact Hc. }
  repeat split.
  - intros now chunk st Hne. apply cycle_buffer_bound. now left.
  - intros now chunk st Hst. apply cycle_buffer_bound. now right.
  - exact Hcycles.
  - intros reads. apply Hcycles. cbn. lia.
Qed.

(** C8 at concrete reads: a 40-byte burst into a buffer already holding 40
    bytes, and the same burst twice from the start of the loop. *)
Lemma C8_buffer_never_exceeds_32_witness :
  let burst := repeat x02 40 in
  let st := {| Temp.buffer := burst; Temp.consecutive_errors := 0;
               Temp.last_valid_frame := None |} in
  burst <> []
  /\ (length (Temp.buffer (fst (fst (Temp.cycle (fun _ => Temp.Empty) "now" burst st)))) <= 32)%nat
  /\ (length (Temp.buffer Temp.initial) <= 32)%nat
  /\ (length (Temp.buffer
                (fst (Temp.cycles (fun _ => Temp.Empty)
                        [("t0"%string, burst); ("t1"%string, burst)]
                        Temp.initial))) <= 32)%nat.
Proof.
  cbv zeta. split; [discriminate|]. split; [|split].
  - apply (proj1 (C8_buffer_never_exceeds_32 (fun _ => Temp.Empty))). discriminate.
  - cbn. lia.
  - apply (proj1 (proj2 (proj2 (C8_buffer_never_exceeds_32 (fun _ => Temp.Empty))))).
    cbn. lia.
Defined.

(** ** The patterns *)

Section Patterns.

Lemma span_spec (p : ascii -> bool) (s : Flow.text) :
  s = fst (Flow.span p s) ++ snd (Flow.span p s)
  /\ Forall (fun c => p c = true) (fst (Flow.span p s)).
Proof.
  induction s as [|c r [IH1 IH2]]; cbn [Flow.span].
  - split; [reflexivity|constructor].
  - destruct (p c) eqn:E; [|split; [reflexivity|constructor]].
    destruct (Flow.span p r) as [a b]. cbn [fst snd app] in *.
    split; [now f_equal|now constructor].
Qed.

Lemma span_app (p : ascii -> bool) (a b : Flow.text) :
  Forall (fun c => p c = true) a ->
  match b with [] => True | c :: _ => p c = false end ->
  Flow.span p (a ++ b) = (a, b).
Proof.
  intros Ha Hb. induction Ha as [|c a Hc Ha IH]; cbn [app Flow.span].
  - destruct b as [|c b]; cbn [Flow.span]; [reflexivity|now rewrite Hb].
  - now rewrite Hc, IH.
Qed.

Lemma literal_spec (lit s r : Flow.text) :
  Flow.literal lit s = Some r <-> s = lit ++ r.
Proof.
  revert s. induction lit as [|a lit IH]; intros s; cbn [Flow.literal app].
  - split; [now intros [= ->]|now intros ->].
  - destruct s as [|c s]; [split; discriminate|].
    destruct (Ascii.eqb_spec a c) as [->|Hne].
    + rewrite IH. split; [now intros ->|now intros [= ->]].
    + split; [discriminate|]. intros [= -> _]. now elim Hne.
Qed.

Lemma numeric_not_space (c : ascii) :
  Flow.is_numeric c = true -> Flow.is_space c = false.
Proof. destruct c as [[] [] [] [] [] [] [] []]; vm_compute; congruence. Qed.

Lemma space_not_numeric (c : ascii) :
  Flow.is_space c = true -> Flow.is_numeric c = false.
Proof.
  intros H. destruct (Flow.is_numeric c) eqn:E; [|reflexivity].
  apply numeric_not_space in E. congruence.
Qed.

(** [numeric_match] finds group 1 exactly when the line reads: the head,
    white space, a run of digits and points, white space, the tail.  This is
    what the pattern [head\s+([\d.]+)\s+tail] means, for a tail that does not
    start with white space. *)
Lemma numeric_match_spec (head tail : string) (line num : Flow.text)
      (t0 : ascii) (trest : Flow.text) :
  list_ascii_of_string tail = t0 :: trest -> Flow.is_space t0 = false ->
  Flow.numeric_match head tail line = Some num
  <-> exists ws1 ws2 rest,
        line = list_ascii_of_string head ++ ws1 ++ num ++ ws2 ++ (t0 :: trest) ++ rest
        /\ ws1 <> [] /\ num <> [] /\ ws2 <> []
        /\ Forall (fun c => Flow.is_space c = true) ws1
        /\ Forall (fun c => Flow.is_numeric c = true) num
        /\ Forall (fun c => Flow.is_space c = true) ws2.
Proof.
  intros Htail Ht0. unfold Flow.numeric_match. rewrite Htail. split.
  - destruct (Flow.literal _ line) as [r1|] eqn:E1; [|discriminate].
    apply literal_spec in E1.
    destruct (span_spec Flow.is_space r1) as [S1 F1].
    destruct (Flow.span Flow.is_space r1) as [ws1 r2]. cbn [fst snd] in *.
    destruct ws1 as [|w1 ws1]; [discriminate|].
    destruct (span_spec Flow.is_numeric r2) as [S2 F2].
    destruct (Flow.span Flow.is_numeric r2) as [n r3]. cbn [fst snd] in *.
    destruct n as [|n1 n]; [discriminate|].
    destruct (span_spec Flow.is_space r3) as [S3 F3].
    destruct (Flow.span Flow.is_space r3) as [ws2 r4]. cbn [fst snd] in *.
    destruct ws2 as [|w2 ws2]; [discriminate|].
    destruct (Flow.literal (t0 :: trest) r4) as [rest|] eqn:E4; [|discriminate].
    apply literal_spec in E4. intros [= <-].
    exists (w1 :: ws1), (w2 :: ws2), rest. subst line r1 r2 r3 r4.
    repeat split; try discriminate; assumption.
  - intros (ws1 & ws2 & rest & -> & H1 & Hn & H2 & F1 & Fn & F2).
    assert (E1 : Flow.literal (list_ascii_of_string head)
                   (list_ascii_of_string head ++ ws1 ++ num ++ ws2 ++ (t0 :: trest) ++ rest)
                 = Some (ws1 ++ num ++ ws2 ++ (t0 :: trest) ++ rest))
      by now apply literal_spec.
    rewrite E1.
    destruct num as [|n1 num]; [congruence|].
    destruct ws2 as [|w2 ws2]; [congruence|].
    rewrite (span_app Flow.is_space ws1) by
      (try exact F1; cbn [app]; apply numeric_not_space; now inversion Fn).
    destruct ws1 as [|w1 ws1]; [congruence|].
    rewrite (span_app Flow.is_numeric (n1 :: num)) by
      (try exact Fn; cbn [app]; apply space_not_numeric; now inversion F2).
    rewrite (span_app Flow.is_space (w2 :: ws2)) by (try exact F2; exact Ht0).
    assert (E4 : Flow.literal (t0 :: trest) ((t0 :: trest) ++ rest) = Some rest)
      by now apply literal_spec.
    now rewrite E4.
Qed.

End Patterns.

(** ** The line assembler *)

Section Assembler.

Variable utc_now : nat -> string.
Variable supabase : Flow.row -> Flow.response.

(** [parse_data_line] is [classify] followed by the update of the field. *)
Lemma parse_data_line_classify (line : string) (cur : Flow.record) :
  Flow.parse_data_line line cur
  = Flow.bind (Flow.classify line) (fun p => Flow.Ok (Flow.apply_parsed p cur)).
Proof.
  unfold Flow.parse_data_line, Flow.classify.
  destruct (Flow.timestamp_match _) as [g|].
  { destruct (Flow.strptime g); reflexivity. }
  destruct (Flow.flow_match _) as [g|].
  { destruct (Flow.float_of_text g); reflexivity. }
  destruct (Flow.vel_match _) as [g|]; [|reflexivity].
  destruct (Flow.float_of_text g); reflexivity.
Qed.

Lemma process_lines_raise line ring cur w e :
  Flow.classify line = Flow.Raise e ->
  Flow.process_lines utc_now supabase (line :: ring) cur w = (Some e, ring, cur, w).
Proof.
  intros H. cbn [Flow.process_lines]. now rewrite parse_data_line_classify, H.
Qed.

Lemma process_lines_timestamp line ring cur w iso :
  Flow.classify line = Flow.Ok (Flow.Timestamp iso) ->
  Flow.process_lines utc_now supabase (line :: ring) cur w
  = Flow.process_lines utc_now supabase ring
      {| Flow.timestamp := Some iso; Flow.flow := Flow.flow cur;
         Flow.velocity := Flow.velocity cur |} w.
Proof.
  intros H. cbn [Flow.process_lines]. now rewrite parse_data_line_classify, H.
Qed.

Lemma process_lines_flow line ring cur w f :
  Flow.classify line = Flow.Ok (Flow.FlowValue f) ->
  Flow.process_lines utc_now supabase (line :: ring) cur w
  = Flow.process_lines utc_now supabase ring
      {| Flow.timestamp := Flow.timestamp cur; Flow.flow := Some f;
         Flow.velocity := Flow.velocity cur |} w.
Proof.
  intros H. cbn [Flow.process_lines]. now rewrite parse_data_line_classify, H.
Qed.

Lemma process_lines_other line ring cur w :
  Flow.classify line = Flow.Ok Flow.Other ->
  Flow.process_lines utc_now supabase (line :: ring) cur w
  = Flow.process_lines utc_now supabase ring cur w.
Proof.
  intros H. cbn [Flow.process_lines]. now rewrite parse_data_line_classify, H.
Qed.

Lemma process_lines_velocity line ring cur w v :
  Flow.classify line = Flow.Ok (Flow.Velocity v) ->
  let cur' := {| Flow.timestamp := Flow.timestamp cur; Flow.flow := Flow.flow cur;
                 Flow.velocity := Some v |} in
  Flow.process_lines utc_now supabase (line :: ring) cur w
  = if Flow.all_values cur'
    then Flow.process_lines utc_now supabase ring Flow.empty_record
           (snd (Flow.store_record utc_now supabase cur' w))
    else Flow.process_lines utc_now supabase ring cur' w.
Proof.
  intros H. cbn [Flow.process_lines]. rewrite parse_data_line_classify, H.
  cbn [Flow.bind Flow.apply_parsed andb].
  destruct (Flow.all_values _); [|reflexivity].
  now destruct (Flow.store_record _ _ _ _).
Qed.

Lemma all_values_inv (r : Flow.record) :
  Flow.all_values r = true ->
  Flow.str_truthy (Flow.timestamp r) = true
  /\ Flow.num_truthy (Flow.flow r) = true
  /\ Flow.num_truthy (Flow.velocity r) = true.
Proof.
  unfold Flow.all_values. rewrite !andb_true_iff. tauto.
Qed.

(** A timestamp line always yields a non-empty string. *)
Lemma classify_timestamp_truthy line iso :
  Flow.classify line = Flow.Ok (Flow.Timestamp iso) ->
  Flow.str_truthy (Some iso) = true.
Proof.
  unfold Flow.classify.
  destruct (Flow.timestamp_match _) as [g|].
  - destruct (Flow.strptime g) as [dt|e]; cbn [Flow.bind]; [|discriminate].
    intros [= <-]. reflexivity.
  - destruct (Flow.flow_match _) as [g|].
    { destruct (Flow.float_of_text g); discriminate. }
    destruct (Flow.vel_match _) as [g|]; [|discriminate].
    destruct (Flow.float_of_text g); discriminate.
Qed.

Lemma store_record_rows cur w :
  Flow.rows (Flow.trace (snd (Flow.store_record utc_now supabase cur w)))
  = Flow.rows (Flow.trace w)
    ++ [{| Flow.row_timestamp := utc_now (Flow.reads w);
           Flow.row_flow := Flow.flow cur;
           Flow.row_velocity := Flow.velocity cur |}].
Proof.
  unfold Flow.store_record, Flow.rows. cbn [snd Flow.trace Flow.flow Flow.velocity].
  rewrite flat_map_app. f_equal.
  destruct (supabase _); [destruct (Flow.flow cur), (Flow.velocity cur)| |]; reflexivity.
Qed.

(** Nothing is handed to the table while the velocity lines give 0.0. *)
Lemma velocity_falsy_no_emission ring :
  (forall line v, In line ring -> Flow.classify line = Flow.Ok (Flow.Velocity v) ->
                  Py.float_truthy v = false) ->
  forall cur w, snd (Flow.process_lines utc_now supabase ring cur w) = w.
Proof.
  induction ring as [|line ring IH]; intros Hv cur w; [reflexivity|].
  assert (Hring : forall l v, In l ring -> Flow.classify l = Flow.Ok (Flow.Velocity v) ->
                              Py.float_truthy v = false)
    by (intros l v Hl; apply Hv; now right).
  destruct (Flow.classify line) as [[iso|f|v|]|e] eqn:Ec.
  - rewrite (process_lines_timestamp _ _ _ _ _ Ec). now apply IH.
  - rewrite (process_lines_flow _ _ _ _ _ Ec). now apply IH.
  - rewrite (process_lines_velocity _ _ _ _ _ Ec). cbv zeta.
    destruct (Flow.all_values _) eqn:Ea; [|now apply IH].
    apply all_values_inv in Ea as (_ & _ & Hvel). cbn in Hvel.
    rewrite (Hv line v (or_introl eq_refl) Ec) in Hvel. discriminate.
  - rewrite (process_lines_other _ _ _ _ Ec). now apply IH.
  - now rewrite (process_lines_raise _ _ _ _ _ Ec).
Qed.

(** Nor while the flow is unset or 0.0 and the flow lines give 0.0. *)
Lemma flow_falsy_no_emission ring :
  (forall line f, In line ring -> Flow.classify line = Flow.Ok (Flow.FlowValue f) ->
                  Py.float_truthy f = false) ->
  forall cur w, Flow.num_truthy (Flow.flow cur) = false ->
                snd (Flow.process_lines utc_now supabase ring cur w) = w.
Proof.
  induction ring as [|line ring IH]; intros Hf cur w Hcur; [reflexivity|].
  assert (Hring : forall l f, In l ring -> Flow.classify l = Flow.Ok (Flow.FlowValue f) ->
                              Py.float_truthy f = false)
    by (intros l f Hl; apply Hf; now right).
  destruct (Flow.classify line) as [[iso|f|v|]|e] eqn:Ec.
  - rewrite (process_lines_timestamp _ _ _ _ _ Ec). now apply IH.
  - rewrite (process_lines_flow _ _ _ _ _ Ec). apply IH; [exact Hring|].
    cbn. exact (Hf line f (or_introl eq_refl) Ec).
  - rewrite (process_lines_velocity _ _ _ _ _ Ec). cbv zeta.
    destruct (Flow.all_values _) eqn:Ea; [|now apply IH].
    apply all_values_inv in Ea as (_ & Hfl & _). cbn in Hfl. congruence.
  - rewrite (process_lines_other _ _ _ _ Ec). now apply IH.
  - now rewrite (process_lines_raise _ _ _ _ _ Ec).
Qed.

(** Nor while no timestamp has been seen. *)
Lemma no_timestamp_no_emission ring :
  (forall line iso, In line ring -> Flow.classify line <> Flow.Ok (Flow.Timestamp iso)) ->
  forall cur w, Flow.str_truthy (Flow.timestamp cur) = false ->
                snd (Flow.process_lines utc_now supabase ring cur w) = w.
Proof.
  induction ring as [|line ring IH]; intros Ht cur w Hcur; [reflexivity|].
  assert (Hring : forall l iso, In l ring -> Flow.classify l <> Flow.Ok (Flow.Timestamp iso))
    by (intros l iso Hl; apply Ht; now right).
  destruct (Flow.classify line) as [[iso|f|v|]|e] eqn:Ec.
  - exfalso. exact (Ht line iso (or_introl eq_refl) Ec).
  - rewrite (process_lines_flow _ _ _ _ _ Ec). now apply IH.
  - rewrite (process_lines_velocity _ _ _ _ _ Ec). cbv zeta.
    destruct (Flow.all_values _) eqn:Ea; [|now apply IH].
    apply all_values_inv in Ea as (Hts & _ & _). cbn in Hts. congruence.
  - rewrite (process_lines_other _ _ _ _ Ec). now apply IH.
  - now rewrite (process_lines_raise _ _ _ _ _ Ec).
Qed.

(** The three lines in the order of the device, with readings other than
    0.0: one row, whatever the table answers, and an empty accumulator. *)
Lemma three_lines_emit ts fl vl iso f v cur w :
  Flow.classify ts = Flow.Ok (Flow.Timestamp iso) ->
  Flow.classify fl = Flow.Ok (Flow.FlowValue f) ->
  Flow.classify vl = Flow.Ok (Flow.Velocity v) ->
  Py.float_truthy f = true -> Py.float_truthy v = true ->
  let r := Flow.process_lines utc_now supabase [ts; fl; vl] cur w in
  fst r = (None, [], Flow.empty_record)
  /\ Flow.rows (Flow.trace (snd r))
     = Flow.rows (Flow.trace w)
       ++ [{| Flow.row_timestamp := utc_now (Flow.reads w);
              Flow.row_flow := Some f; Flow.row_velocity := Some v |}].
Proof.
  intros Hts Hfl Hvl Hf Hv. cbv zeta.
  rewrite (process_lines_timestamp _ _ _ _ _ Hts), (process_lines_flow _ _ _ _ _ Hfl),
    (process_lines_velocity _ _ _ _ _ Hvl).
  cbv zeta. cbn [Flow.timestamp Flow.flow Flow.velocity].
  unfold Flow.all_values. cbn [Flow.timestamp Flow.flow Flow.velocity Flow.num_truthy].
  rewrite (classify_timestamp_truthy _ _ Hts), Hf, Hv. cbn [andb Flow.process_lines fst snd].
  split; [reflexivity|]. now rewrite store_record_rows.
Qed.

(** The timestamp of the accumulator does not reach the table. *)
Lemma store_record_ignores_timestamp t t' f v w :
  snd (Flow.store_record utc_now supabase
         {| Flow.timestamp := t; Flow.flow := f; Flow.velocity := v |} w)
  = snd (Flow.store_record utc_now supabase
           {| Flow.timestamp := t'; Flow.flow := f; Flow.velocity := v |} w).
Proof. reflexivity. Qed.

(** Every row [process_buffer] hands to the table carries a clock reading. *)
Lemma rows_carry_clock ring :
  forall cur w r,
    In r (Flow.rows (Flow.trace (snd (Flow.process_lines utc_now supabase ring cur w)))) ->
    In r (Flow.rows (Flow.trace w)) \/ exists k, Flow.row_timestamp r = utc_now k.
Proof.
  induction ring as [|line ring IH]; intros cur w r Hr; [now left|].
  destruct (Flow.classify line) as [[iso|f|v|]|e] eqn:Ec.
  - rewrite (process_lines_timestamp _ _ _ _ _ Ec) in Hr. now apply IH in Hr.
  - rewrite (process_lines_flow _ _ _ _ _ Ec) in Hr. now apply IH in Hr.
  - rewrite (process_lines_velocity _ _ _ _ _ Ec) in Hr. cbv zeta in Hr.
    destruct (Flow.all_values _); [|now apply IH in Hr].
    apply IH in Hr as [Hr|Hr]; [|now right].
    rewrite store_record_rows in Hr. apply in_app_or in Hr as [Hr|[<-|[]]].
    + now left.
    + right. now exists (Flow.reads w).
  - rewrite (process_lines_other _ _ _ _ Ec) in Hr. now apply IH in Hr.
  - rewrite (process_lines_raise _ _ _ _ _ Ec) in Hr. now left.
Qed.

(** An exception of [parse_data_line] leaves [run]. *)
Lemma malformed_line_escapes_run line e events c w :
  Flow.classify line = Flow.Raise e ->
  Flow.ring_buffer c = [] -> 0 < Flow.buffer_size c ->
  Flow.run utc_now supabase (Flow.Line line :: events) c w
  = (Some e, c, Flow.emit w [Flow.Stopped]).
Proof.
  intros Hc Hring Hsize. destruct c as [size ring cur]. cbn in Hring, Hsize. subst ring.
  cbn [Flow.run Flow.receive].
  destruct (Flow.strip (list_ascii_of_string line)) as [|ch rest] eqn:Es.
  { unfold Flow.classify in Hc. rewrite Es in Hc. discriminate Hc. }
  cbn [Flow.buffer_size Flow.ring_buffer Flow.current_record].
  assert (Hq : Flow.deque_append size [] line = [line]).
  { unfold Flow.deque_append. cbn [app length].
    replace (1 - size) with 0 by lia. reflexivity. }
  rewrite Hq. unfold Flow.process_buffer at 1.
  cbn [Flow.ring_buffer Flow.current_record Flow.buffer_size].
  rewrite (process_lines_raise _ _ _ _ _ Hc). reflexivity.
Qed.

End Assembler.

Lemma permutation_of_three {A : Type} (a b c : A) (p : list A) :
  Permutation p [a; b; c] ->
  p = [a; b; c] \/ p = [a; c; b] \/ p = [b; a; c]
  \/ p = [b; c; a] \/ p = [c; a; b] \/ p = [c; b; a].
Proof.
  intros H.
  destruct (Permutation_vs_cons_inv H) as (l1 & l2 & ->).
  apply Permutation_sym, Permutation_cons_app_inv, Permutation_length_2_inv in H.
  destruct l1 as [|x [|y [|z l1]]]; cbn [app] in *.
  - destruct H as [->| ->]; tauto.
  - destruct H as [H|H]; injection H as <- <-; tauto.
  - destruct H as [H|H]; injection H as <- <- <-; tauto.
  - destruct H as [H|H]; apply (f_equal (@length A)) in H;
      cbn in H; rewrite length_app in H; cbn in H; lia.
Qed.

(** ** C4: the three lines in order *)

(** C4 (code evaluated where it departs from the claim).  The well-formed
    lines "25-01-01 00:00:00", "Flow 0.00 l/s", "Vel: 0.35 m/s", in that
    order, into an empty accumulator: all three parse, [process_buffer]
    returns normally, nothing is emitted (the world is untouched) and the
    accumulator keeps the three fields instead of being reset.  The same with
    0.00 as the velocity. *)
Theorem C4_zero_reading_is_not_emitted
  (utc_now : nat -> string) (supabase : Flow.row -> Flow.response) :
  let ts := "25-01-01 00:00:00"%string in
  let iso := "2025-01-01T00:00:00+07:00"%string in
  let start ring := {| Flow.buffer_size := 1000; Flow.ring_buffer := ring;
                       Flow.current_record := Flow.empty_record |} in
  let stuck f v := {| Flow.buffer_size := 1000; Flow.ring_buffer := [];
                      Flow.current_record :=
                        {| Flow.timestamp := Some iso; Flow.flow := Some f;
                           Flow.velocity := Some v |} |} in
  map Flow.classify [ts; "Flow 0.00 l/s"; "Vel: 0.35 m/s"; "Flow 1.25 l/s"; "Vel: 0.00 m/s"]%string
  = [Flow.Ok (Flow.Timestamp iso); Flow.Ok (Flow.FlowValue 0); Flow.Ok (Flow.Velocity 0.35);
     Flow.Ok (Flow.FlowValue 1.25); Flow.Ok (Flow.Velocity 0)]
  /\ Flow.process_buffer utc_now supabase
       (start [ts; "Flow 0.00 l/s"; "Vel: 0.35 m/s"]%string) Flow.new_world
     = (None, stuck 0%float 0.35%float, Flow.new_world)
  /\ Flow.process_buffer utc_now supabase
       (start [ts; "Flow 1.25 l/s"; "Vel: 0.00 m/s"]%string) Flow.new_world
     = (None, stuck 1.25%float 0%float, Flow.new_world).
Proof. cbv zeta. repeat split; vm_compute; reflexivity. Qed.

(** ** C5: other orders, missing lines *)

(** C5, as stated, fails for the order flow, timestamp, velocity: the
    velocity line comes last, all three fields are set, one row goes out. *)
Lemma C5_flow_then_timestamp_emits :
  let ts := "25-01-01 00:00:00"%string in
  let fl := "Flow 12.5 l/s"%string in
  let vl := "Vel: 0.35 m/s"%string in
  Permutation [fl; ts; vl] [ts; fl; vl]
  /\ [fl; ts; vl] <> [ts; fl; vl]
  /\ Flow.rows (Flow.trace (snd (Flow.process_lines (fun _ => "now"%string)
                                   (fun _ => Flow.Data) [fl; ts; vl]
                                   Flow.empty_record Flow.new_world)))
     = [{| Flow.row_timestamp := "now"; Flow.row_flow := Some 12.5%float;
           Flow.row_velocity := Some 0.35%float |}].
Proof.
  cbv zeta. split; [apply perm_swap|]. split; [discriminate|].
  vm_compute. reflexivity.
Qed.

(** C5 (amended): for well-formed timestamp, flow and velocity lines fed to
    an empty accumulator, no record is emitted by any permutation of the
    three other than timestamp-flow-velocity and flow-timestamp-velocity
    (the two that end with the velocity line), nor by any sequence made of
    only two of the three lines. *)
Theorem C5_no_record_unless_velocity_comes_last
  (utc_now : nat -> string) (supabase : Flow.row -> Flow.response)
  (ts fl vl iso : string) (f v : float) :
  Flow.classify ts = Flow.Ok (Flow.Timestamp iso) ->
  Flow.classify fl = Flow.Ok (Flow.FlowValue f) ->
  Flow.classify vl = Flow.Ok (Flow.Velocity v) ->
  (forall p w, Permutation p [ts; fl; vl] ->
               p <> [ts; fl; vl] -> p <> [fl; ts; vl] ->
               snd (Flow.process_lines utc_now supabase p Flow.empty_record w) = w)
  /\ (forall p w,
        (forall line, In line p -> line = ts \/ line = fl)
        \/ (forall line, In line p -> line = ts \/ line = vl)
        \/ (forall line, In line p -> line = fl \/ line = vl) ->
        snd (Flow.process_lines utc_now supabase p Flow.empty_record w) = w).
Proof.
  intros Hts Hfl Hvl. split.
  - intros p w Hp Hn1 Hn2.
    destruct (permutation_of_three _ _ _ _ Hp)
      as [->|[->|[->|[->|[->| ->]]]]]; try congruence.
    + (* timestamp, velocity, flow *)
      rewrite (process_lines_timestamp _ _ _ _ _ _ _ Hts),
        (process_lines_velocity _ _ _ _ _ _ _ Hvl).
      cbv zeta. cbn [Flow.empty_record Flow.timestamp Flow.flow Flow.velocity].
      unfold Flow.all_values at 1. cbn [Flow.flow Flow.num_truthy].
      rewrite andb_false_r. cbn [andb].
      now rewrite (process_lines_flow _ _ _ _ _ _ _ Hfl).
    + (* flow, velocity, timestamp *)
      rewrite (process_lines_flow _ _ _ _ _ _ _ Hfl),
        (process_lines_velocity _ _ _ _ _ _ _ Hvl).
      cbv zeta. cbn [Flow.empty_record Flow.timestamp Flow.flow Flow.velocity].
      unfold Flow.all_values at 1. cbn [Flow.timestamp Flow.str_truthy andb].
      now rewrite (process_lines_timestamp _ _ _ _ _ _ _ Hts).
    + (* velocity, timestamp, flow *)
      rewrite (process_lines_velocity _ _ _ _ _ _ _ Hvl).
      cbv zeta. cbn [Flow.empty_record Flow.timestamp Flow.flow Flow.velocity].
      unfold Flow.all_values at 1. cbn [Flow.timestamp Flow.str_truthy andb].
      now rewrite (process_lines_timestamp _ _ _ _ _ _ _ Hts),
        (process_lines_flow _ _ _ _ _ _ _ Hfl).
    + (* velocity, flow, timestamp *)
      rewrite (process_lines_velocity _ _ _ _ _ _ _ Hvl).
      cbv zeta. cbn [Flow.empty_record Flow.timestamp Flow.flow Flow.velocity].
      unfold Flow.all_values at 1. cbn [Flow.timestamp Flow.str_truthy andb].
      now rewrite (process_lines_flow _ _ _ _ _ _ _ Hfl),
        (process_lines_timestamp _ _ _ _ _ _ _ Hts).
  - intros p w [H|[H|H]].
    + (* no velocity line *)
      apply velocity_falsy_no_emission. intros line v' Hin Hc.
      destruct (H line Hin) as [-> | ->]; congruence.
    + (* no flow line *)
      apply flow_falsy_no_emission; [|reflexivity]. intros line f' Hin Hc.
      destruct (H line Hin) as [-> | ->]; congruence.
    + (* no timestamp line *)
      apply no_timestamp_no_emission; [|reflexivity]. intros line iso' Hin Hc.
      destruct (H line Hin) as [-> | ->]; congruence.
Qed.

(** C5 at concrete lines: the order velocity, timestamp, flow, and the
    sequence timestamp, flow without a velocity line. *)
Lemma C5_no_record_unless_velocity_comes_last_witness :
  let ts := "25-01-01 00:00:00"%string in
  let fl := "Flow 12.5 l/s"%string in
  let vl := "Vel: 0.35 m/s"%string in
  let process p := snd (Flow.process_lines (fun _ => "now"%string) (fun _ => Flow.Data)
                          p Flow.empty_record Flow.new_world) in
  Flow.classify ts = Flow.Ok (Flow.Timestamp "2025-01-01T00:00:00+07:00")
  /\ Flow.classify fl = Flow.Ok (Flow.FlowValue 12.5)
  /\ Flow.classify vl = Flow.Ok (Flow.Velocity 0.35)
  /\ Permutation [vl; ts; fl] [ts; fl; vl]
  /\ process [vl; ts; fl] = Flow.new_world
  /\ process [ts; fl] = Flow.new_world.
Proof.
  cbv zeta.
  assert (Hts : Flow.classify "25-01-01 00:00:00"
                = Flow.Ok (Flow.Timestamp "2025-01-01T00:00:00+07:00"))
    by (vm_compute; reflexivity).
  assert (Hfl : Flow.classify "Flow 12.5 l/s" = Flow.Ok (Flow.FlowValue 12.5))
    by (vm_compute; reflexivity).
  assert (Hvl : Flow.classify "Vel: 0.35 m/s" = Flow.Ok (Flow.Velocity 0.35))
    by (vm_compute; reflexivity).
  assert (Hp : Permutation ["Vel: 0.35 m/s"; "25-01-01 00:00:00"; "Flow 12.5 l/s"]%string
                           ["25-01-01 00:00:00"; "Flow 12.5 l/s"; "Vel: 0.35 m/s"]%string).
  { apply (perm_trans (l' := ["25-01-01 00:00:00"; "Vel: 0.35 m/s"; "Flow 12.5 l/s"]%string)).
    - apply perm_swap.
    - apply perm_skip, perm_swap. }
  split; [exact Hts|]. split; [exact Hfl|]. split; [exact Hvl|]. split; [exact Hp|].
  pose proof (C5_no_record_unless_velocity_comes_last
                (fun _ => "now"%string) (fun _ => Flow.Data) _ _ _ _ _ _ Hts Hfl Hvl)
    as [Hperm Homit].
  split.
  - apply Hperm; [exact Hp|discriminate|discriminate].
  - apply Homit. left. intros line [<-|[<-|[]]]; tauto.
Defined.

(** ** C7: a number that does not parse *)

(** C7 (code evaluated where it departs from the claim).  "Flow . l/s" and
    "Vel: 1.2.3 m/s" match their patterns; [float] raises [ValueError] on the
    captured text; neither [parse_data_line] nor [process_buffer] nor [run]
    catches it: the exception leaves [run] and the lines that would follow
    are never read. *)
Theorem C7_malformed_number_escapes_run
  (utc_now : nat -> string) (supabase : Flow.row -> Flow.response) :
  let e1 := Flow.ValueError "could not convert string to float: '.'" in
  let e2 := Flow.ValueError "could not convert string to float: '1.2.3'" in
  Flow.flow_match (list_ascii_of_string "Flow . l/s") = Some (list_ascii_of_string ".")
  /\ Flow.vel_match (list_ascii_of_string "Vel: 1.2.3 m/s") = Some (list_ascii_of_string "1.2.3")
  /\ Flow.parse_data_line "Flow . l/s" Flow.empty_record = Flow.Raise e1
  /\ Flow.parse_data_line "Vel: 1.2.3 m/s" Flow.empty_record = Flow.Raise e2
  /\ (forall events,
        Flow.run utc_now supabase (Flow.Line "Flow . l/s" :: events)
                 (Flow.new_collector 1000) Flow.new_world
        = (Some e1, Flow.new_collector 1000, Flow.emit Flow.new_world [Flow.Stopped]))
  /\ (forall events,
        Flow.run utc_now supabase (Flow.Line "Vel: 1.2.3 m/s" :: events)
                 (Flow.new_collector 1000) Flow.new_world
        = (Some e2, Flow.new_collector 1000, Flow.emit Flow.new_world [Flow.Stopped])).
Proof.
  cbv zeta.
  split; [reflexivity|]. split; [reflexivity|].
  split; [reflexivity|]. split; [reflexivity|].
  split; intros events; apply malformed_line_escapes_run;
    solve [reflexivity | cbn; lia].
Qed.

(** ** C9: the timestamp that is stored *)

(** C9: a timestamp line puts the device time, as an ISO string, into the
    accumulator; [store_record] replaces it by the reading of the clock and
    hands the table a row with that reading; every row [process_buffer]
    emits carries a clock reading; and two runs that differ only in the
    device time of the timestamp line leave the same trace. *)
Theorem C9_stored_timestamp_is_the_clock_reading
  (utc_now : nat -> string) (supabase : Flow.row -> Flow.response) :
  (forall line iso cur,
      Flow.classify line = Flow.Ok (Flow.Timestamp iso) ->
      Flow.parse_data_line line cur
      = Flow.Ok (false, {| Flow.timestamp := Some iso; Flow.flow := Flow.flow cur;
                           Flow.velocity := Flow.velocity cur |}))
  /\ (forall cur w,
      Flow.timestamp (fst (Flow.store_record utc_now supabase cur w))
      = Some (utc_now (Flow.reads w))
      /\ Flow.rows (Flow.trace (snd (Flow.store_record utc_now supabase cur w)))
         = Flow.rows (Flow.trace w)
           ++ [{| Flow.row_timestamp := utc_now (Flow.reads w);
                  Flow.row_flow := Flow.flow cur;
                  Flow.row_velocity := Flow.velocity cur |}])
  /\ (forall ring cur w r,
      In r (Flow.rows (Flow.trace (snd (Flow.process_lines utc_now supabase ring cur w)))) ->
      In r (Flow.rows (Flow.trace w)) \/ exists k, Flow.row_timestamp r = utc_now k)
  /\ (forall ts ts' iso iso' fl vl f v cur w,
      Flow.classify ts = Flow.Ok (Flow.Timestamp iso) ->
      Flow.classify ts' = Flow.Ok (Flow.Timestamp iso') ->
      Flow.classify fl = Flow.Ok (Flow.FlowValue f) ->
      Flow.classify vl = Flow.Ok (Flow.Velocity v) ->
      snd (Flow.process_lines utc_now supabase [ts; fl; vl] cur w)
      = snd (Flow.process_lines utc_now supabase [ts'; fl; vl] cur w)).
Proof.
  split; [|split; [|split]].
  - intros line iso cur H. now rewrite parse_data_line_classify, H.
  - intros cur w. split; [reflexivity|apply store_record_rows].
  - intros ring. apply rows_carry_clock.
  - intros ts ts' iso iso' fl vl f v cur w Hts Hts' Hfl Hvl.
    rewrite (process_lines_timestamp _ _ _ _ _ _ _ Hts),
      (process_lines_timestamp _ _ _ _ _ _ _ Hts'),
      !(process_lines_flow _ _ _ _ _ _ _ Hfl),
      !(process_lines_velocity _ _ _ _ _ _ _ Hvl).
    cbv zeta. cbn [Flow.timestamp Flow.flow Flow.velocity].
    unfold Flow.all_values. cbn [Flow.timestamp Flow.flow Flow.velocity].
    rewrite (classify_timestamp_truthy _ _ Hts), (classify_timestamp_truthy _ _ Hts').
    destruct (true && _ && _); reflexivity.
Qed.

(** C9 at concrete lines: the device times 2025-01-01 00:00:00 and
    2024-06-30 12:30:45 give the same row, stamped by the clock. *)
Lemma C9_stored_timestamp_is_the_clock_reading_witness :
  let clock := fun _ : nat => "2025-03-04T05:06:07+00:00"%string in
  let process ts := snd (Flow.process_lines clock (fun _ => Flow.Data)
                           [ts; "Flow 12.5 l/s"; "Vel: 0.35 m/s"]%string
                           Flow.empty_record Flow.new_world) in
  Flow.classify "25-01-01 00:00:00" = Flow.Ok (Flow.Timestamp "2025-01-01T00:00:00+07:00")
  /\ Flow.classify "24-06-30 12:30:45" = Flow.Ok (Flow.Timestamp "2024-06-30T12:30:45+07:00")
  /\ Flow.classify "Flow 12.5 l/s" = Flow.Ok (Flow.FlowValue 12.5)
  /\ Flow.classify "Vel: 0.35 m/s" = Flow.Ok (Flow.Velocity 0.35)
  /\ process "25-01-01 00:00:00"%string = process "24-06-30 12:30:45"%string
  /\ Flow.rows (Flow.trace (process "25-01-01 00:00:00"%string))
     = [{| Flow.row_timestamp := "2025-03-04T05:06:07+00:00";
           Flow.row_flow := Some 12.5%float; Flow.row_velocity := Some 0.35%float |}].
Proof.
  cbv zeta.
  assert (Hts : Flow.classify "25-01-01 00:00:00"
                = Flow.Ok (Flow.Timestamp "2025-01-01T00:00:00+07:00"))
    by (vm_compute; reflexivity).
  assert (Hts' : Flow.classify "24-06-30 12:30:45"
                 = Flow.Ok (Flow.Timestamp "2024-06-30T12:30:45+07:00"))
    by (vm_compute; reflexivity).
  assert (Hfl : Flow.classify "Flow 12.5 l/s" = Flow.Ok (Flow.FlowValue 12.5))
    by (vm_compute; reflexivity).
  assert (Hvl : Flow.classify "Vel: 0.35 m/s" = Flow.Ok (Flow.Velocity 0.35))
    by (vm_compute; reflexivity).
  split; [exact Hts|]. split; [exact Hts'|]. split; [exact Hfl|]. split; [exact Hvl|].
  split.
  - exact (proj2 (proj2 (proj2 (C9_stored_timestamp_is_the_clock_reading
                                  (fun _ => "2025-03-04T05:06:07+00:00"%string)
                                  (fun _ => Flow.Data))))
                 _ _ _ _ _ _ _ _ Flow.empty_record Flow.new_world Hts Hts' Hfl Hvl).
  - vm_compute. reflexivity.
Defined.

(** ** C10: a reading of 0.0 *)

(** C10: [all] takes a stored 0.0 for a missing value.  As long as the flow
    lines parse to 0.0 (and the accumulator holds no other flow), or the
    velocity lines parse to 0.0, [process_buffer] emits nothing, whatever
    else the lines are; and on a timestamp line, a flow line and a velocity
    line of which the flow or the velocity parses to 0.0, nothing is emitted
    and the accumulator keeps its three parsed fields instead of being
    reset. *)
Theorem C10_zero_reading_blocks_emission
  (utc_now : nat -> string) (supabase : Flow.row -> Flow.response) :
  (forall ring cur w,
      Flow.num_truthy (Flow.flow cur) = false ->
      (forall line f, In line ring -> Flow.classify line = Flow.Ok (Flow.FlowValue f) ->
                      PrimFloat.eqb f 0 = true) ->
      snd (Flow.process_lines utc_now supabase ring cur w) = w)
  /\ (forall ring cur w,
      (forall line v, In line ring -> Flow.classify line = Flow.Ok (Flow.Velocity v) ->
                      PrimFloat.eqb v 0 = true) ->
      snd (Flow.process_lines utc_now supabase ring cur w) = w)
  /\ (forall ts fl vl iso f v cur w,
      Flow.classify ts = Flow.Ok (Flow.Timestamp iso) ->
      Flow.classify fl = Flow.Ok (Flow.FlowValue f) ->
      Flow.classify vl = Flow.Ok (Flow.Velocity v) ->
      PrimFloat.eqb f 0 = true \/ PrimFloat.eqb v 0 = true ->
      Flow.process_lines utc_now supabase [ts; fl; vl] cur w
      = (None, [],
         {| Flow.timestamp := Some iso; Flow.flow := Some f; Flow.velocity := Some v |},
         w)).
Proof.
  split; [|split].
  - intros ring cur w Hcur Hz. apply flow_falsy_no_emission; [|exact Hcur].
    intros line f Hin Hc. unfold Py.float_truthy. now rewrite (Hz line f Hin Hc).
  - intros ring cur w Hz. apply velocity_falsy_no_emission.
    intros line v Hin Hc. unfold Py.float_truthy. now rewrite (Hz line v Hin Hc).
  - intros ts fl vl iso f v cur w Hts Hfl Hvl Hz.
    rewrite (process_lines_timestamp _ _ _ _ _ _ _ Hts),
      (process_lines_flow _ _ _ _ _ _ _ Hfl),
      (process_lines_velocity _ _ _ _ _ _ _ Hvl).
    cbv zeta. cbn [Flow.timestamp Flow.flow Flow.velocity].
    assert (Ha : Flow.all_values
                   {| Flow.timestamp := Some iso; Flow.flow := Some f;
                      Flow.velocity := Some v |} = false).
    { unfold Flow.all_values, Flow.num_truthy, Py.float_truthy.
      cbn [Flow.timestamp Flow.flow Flow.velocity].
      destruct Hz as [-> | ->]; cbn [negb]; now rewrite ?andb_false_r. }
    rewrite Ha. reflexivity.
Qed.

(** C10 at the lines of the claim: timestamp, "Flow 0.00 l/s", velocity. *)
Lemma C10_zero_reading_blocks_emission_witness :
  Flow.classify "25-01-01 00:00:00" = Flow.Ok (Flow.Timestamp "2025-01-01T00:00:00+07:00")
  /\ Flow.classify "Flow 0.00 l/s" = Flow.Ok (Flow.FlowValue 0)
  /\ Flow.classify "Vel: 0.35 m/s" = Flow.Ok (Flow.Velocity 0.35)
  /\ (PrimFloat.eqb 0 0 = true \/ PrimFloat.eqb 0.35 0 = true)
  /\ Flow.process_lines (fun _ => "now"%string) (fun _ => Flow.Data)
       ["25-01-01 00:00:00"; "Flow 0.00 l/s"; "Vel: 0.35 m/s"]%string
       Flow.empty_record Flow.new_world
     = (None, [],
        {| Flow.timestamp := Some "2025-01-01T00:00:00+07:00"%string;
           Flow.flow := Some 0%float; Flow.velocity := Some 0.35%float |},
        Flow.new_world).
Proof.
  assert (Hts : Flow.classify "25-01-01 00:00:00"
                = Flow.Ok (Flow.Timestamp "2025-01-01T00:00:00+07:00"))
    by (vm_compute; reflexivity).
  assert (Hfl : Flow.classify "Flow 0.00 l/s" = Flow.Ok (Flow.FlowValue 0))
    by (vm_compute; reflexivity).
  assert (Hvl : Flow.classify "Vel: 0.35 m/s" = Flow.Ok (Flow.Velocity 0.35))
    by (vm_compute; reflexivity).
  assert (Hz : PrimFloat.eqb 0 0 = true \/ PrimFloat.eqb 0.35 0 = true)
    by (left; reflexivity).
  split; [exact Hts|]. split; [exact Hfl|]. split; [exact Hvl|]. split; [exact Hz|].
  exact (proj2 (proj2 (C10_zero_reading_blocks_emission
                         (fun _ => "now"%string) (fun _ => Flow.Data)))
               _ _ _ _ _ _ Flow.empty_record Flow.new_world Hts Hfl Hvl Hz).
Defined.

(** * Further properties of the temperature reader *)

Section Frames.

Local Open Scope Z_scope.

Lemma item_slice8 (buffer : list byte) (i k : nat) :
  (k < 8)%nat -> Temp.item (Temp.slice8 buffer i) k = Temp.item buffer (i + k).
Proof.
  intros Hk. unfold Temp.item, Temp.slice8.
  rewrite nth_firstn, nth_skipn.
  destruct (k <? 8)%nat eqn:E; [reflexivity|]. apply Nat.ltb_ge in E. lia.
Qed.

Lemma valid_frame_slice8 (buffer : list byte) (i : nat) :
  In i (Temp.scan_range buffer) ->
  Temp.valid_frame (Temp.slice8 buffer i)
  = (Temp.item buffer i =? 2) && (Temp.item (Temp.slice8 buffer i) 7 =? 3).
Proof.
  intros Hi. unfold Temp.valid_frame.
  rewrite (slice8_length _ _ Hi), (item_slice8 buffer i 0) by lia.
  now rewrite Nat.add_0_r.
Qed.

(** [find_frame_from] stops at the first index whose window is valid. *)
Lemma find_frame_from_find (buffer : list byte) (idxs : list nat) :
  (forall i, In i idxs -> In i (Temp.scan_range buffer)) ->
  snd (Temp.find_frame_from buffer idxs)
  = option_map (fun i => (Temp.slice8 buffer i, (i + 8)%nat))
      (find (fun i => Temp.valid_frame (Temp.slice8 buffer i)) idxs).
Proof.
  induction idxs as [|i rest IH]; intros Hin; [reflexivity|].
  cbn [Temp.find_frame_from find].
  rewrite (valid_frame_slice8 buffer i) by (apply Hin; now left).
  destruct (Temp.item buffer i =? 2); cbn [andb].
  - destruct (Temp.item (Temp.slice8 buffer i) 7 =? 3); [reflexivity|].
    rewrite <- IH by (intros j Hj; apply Hin; now right).
    now destruct (Temp.find_frame_from buffer rest).
  - apply IH. intros j Hj. apply Hin. now right.
Qed.

Lemma find_frame_result (buffer : list byte) :
  snd (Temp.find_frame buffer)
  = match find (fun i => Temp.valid_frame (Temp.slice8 buffer i)) (Temp.scan_range buffer) with
    | Some i => (Some (Temp.slice8 buffer i), (i + 8)%nat)
    | None => (None, 0%nat)
    end.
Proof.
  pose proof (find_frame_from_find buffer (Temp.scan_range buffer) (fun i H => H)) as H.
  unfold Temp.find_frame.
  destruct (Temp.find_frame_from buffer (Temp.scan_range buffer)) as [out [[c n]|]];
    cbn [snd] in H;
    destruct (find _ (Temp.scan_range buffer)) as [i|]; cbn [option_map] in H;
    try discriminate H.
  - injection H as Hc Hn. subst c n. now destruct out.
  - now destruct out.
Qed.

Lemma hd_error_filter_map {A B : Type} (p : B -> bool) (g : A -> B) (l : list A) :
  hd_error (filter p (map g l)) = option_map g (find (fun a => p (g a)) l).
Proof.
  induction l as [|a l IH]; [reflexivity|]. cbn [map filter find].
  destruct (p (g a)); [reflexivity|exact IH].
Qed.

Lemma find_seq_first (p : nat -> bool) (k : nat) :
  p k = true -> (forall j, (j < k)%nat -> p j = false) ->
  forall n start, (start <= k < start + n)%nat -> find p (seq start n) = Some k.
Proof.
  intros Hk Hbefore. induction n as [|n IH]; intros start Hr; [lia|].
  cbn [seq find]. destruct (Nat.eq_dec start k) as [->|Hne].
  - now rewrite Hk.
  - rewrite Hbefore by lia. apply IH. lia.
Qed.

Lemma find_seq_before (p : nat -> bool) (n start i : nat) :
  find p (seq start n) = Some i ->
  forall j, (start <= j < i)%nat -> p j = false.
Proof.
  revert start. induction n as [|n IH]; intros start; cbn [seq find]; [discriminate|].
  destruct (p start) eqn:Eps.
  - intros [= ->] j Hj. lia.
  - intros Hf j Hj. destruct (Nat.eq_dec j start) as [->|Hne]; [exact Eps|].
    apply (IH _ Hf). lia.
Qed.

End Frames.

(** X1: [find_frame] returns the first valid frame of the buffer (the first
    8-byte window with 0x02 first and 0x03 last) together with the index just
    past it, which lies within the buffer; it returns (None, 0) exactly when
    the buffer holds no valid frame, in particular when it has fewer than 8
    bytes. *)
Theorem X1_find_frame_returns_first_valid_frame (buffer : list byte) :
  fst (snd (Temp.find_frame buffer)) = hd_error (Temp.valid_frames buffer)
  /\ (forall frame n,
        snd (Temp.find_frame buffer) = (Some frame, n) ->
        (8 <= n <= length buffer)%nat
        /\ frame = Temp.slice8 buffer (n - 8)
        /\ Temp.valid_frame frame = true
        /\ forall j, (j < n - 8)%nat -> Temp.valid_frame (Temp.slice8 buffer j) = false)
  /\ (Temp.valid_frames buffer = [] <-> snd (Temp.find_frame buffer) = (None, 0%nat))
  /\ ((length buffer < 8)%nat -> snd (Temp.find_frame buffer) = (None, 0%nat)).
Proof.
  rewrite find_frame_result. unfold Temp.valid_frames, Temp.windows.
  rewrite hd_error_filter_map.
  set (p := fun i => Temp.valid_frame (Temp.slice8 buffer i)).
  assert (Hnil : filter Temp.valid_frame (map (Temp.slice8 buffer) (Temp.scan_range buffer)) = []
                 <-> find p (Temp.scan_range buffer) = None).
  { pose proof (hd_error_filter_map Temp.valid_frame (Temp.slice8 buffer)
                  (Temp.scan_range buffer)) as H. fold p in H.
    destruct (filter _ _) as [|f fs]; destruct (find p _) as [i|];
      cbn in H; try discriminate H; split; congruence. }
  destruct (find p (Temp.scan_range buffer)) as [i|] eqn:Ef.
  - split; [reflexivity|]. split; [|split].
    + intros frame n [= <- <-].
      destruct (find_some _ _ Ef) as [Hin Hp].
      apply in_seq in Hin.
      replace (i + 8 - 8)%nat with i by lia.
      split; [lia|]. split; [reflexivity|]. split; [exact Hp|].
      intros j Hj. apply (find_seq_before p _ _ _ Ef). lia.
    + rewrite Hnil. split; discriminate.
    + intros Hlen. exfalso. destruct (find_some _ _ Ef) as [Hin _].
      apply in_seq in Hin. lia.
  - split; [reflexivity|]. split; [|split].
    + intros frame n H. discriminate H.
    + rewrite Hnil. tauto.
    + reflexivity.
Qed.

(** X1 on the buffer [FF 02 00 01 F4 01 F4 00 03]: one byte of noise, then
    a valid frame. *)
Lemma X1_find_frame_returns_first_valid_frame_witness :
  let buffer := [xff; x02; x00; x01; xf4; x01; xf4; x00; x03] in
  let frame := [x02; x00; x01; xf4; x01; xf4; x00; x03] in
  snd (Temp.find_frame buffer) = (Some frame, 9%nat)
  /\ (8 <= 9 <= length buffer)%nat
  /\ frame = Temp.slice8 buffer (9 - 8)
  /\ Temp.valid_frame frame = true.
Proof.
  cbv zeta.
  assert (H : snd (Temp.find_frame [xff; x02; x00; x01; xf4; x01; xf4; x00; x03])
              = (Some [x02; x00; x01; xf4; x01; xf4; x00; x03], 9%nat)) by reflexivity.
  split; [exact H|].
  destruct (proj1 (proj2 (X1_find_frame_returns_first_valid_frame _)) _ _ H)
    as (Hn & Hf & Hv & _).
  split; [exact Hn|]. split; [exact Hf|exact Hv].
Defined.

Lemma byte_val_02 (b : byte) : Temp.byte_val b = 2%Z -> b = x02.
Proof.
  unfold Temp.byte_val. intros H.
  assert (Hn : Byte.to_N b = 2%N) by lia.
  pose proof (Byte.of_to_N b) as Hb. rewrite Hn in Hb. cbn in Hb. congruence.
Qed.

(** X2: noise that holds no 0x02 byte does not hide a frame: in front of a
    valid frame, whatever follows it, [find_frame] returns that frame and
    the index just past it. *)
Theorem X2_find_frame_skips_noise (noise frame rest : list byte) :
  Forall (fun b => b <> x02) noise ->
  Temp.valid_frame frame = true ->
  snd (Temp.find_frame (noise ++ frame ++ rest)) = (Some frame, (length noise + 8)%nat).
Proof.
  intros Hnoise Hvalid.
  assert (Hlen : length frame = 8%nat).
  { unfold Temp.valid_frame in Hvalid.
    destruct (length frame =? 8)%nat eqn:E; [now apply Nat.eqb_eq|discriminate]. }
  assert (Hslice : Temp.slice8 (noise ++ frame ++ rest) (length noise) = frame).
  { unfold Temp.slice8. rewrite skipn_app, skipn_all, Nat.sub_diag.
    change (skipn 0 (frame ++ rest)) with (frame ++ rest). rewrite app_nil_l.
    rewrite firstn_app, Hlen, Nat.sub_diag, firstn_O, app_nil_r.
    apply firstn_all2. lia. }
  rewrite find_frame_result. unfold Temp.scan_range at 1.
  rewrite (find_seq_first _ (length noise)).
  - now rewrite Hslice.
  - now rewrite Hslice.
  - intros j Hj. rewrite valid_frame_slice8.
    + unfold Temp.item. rewrite app_nth1 by exact Hj.
      destruct (Temp.byte_val (nth j noise x00) =? 2)%Z eqn:E; [|reflexivity].
      apply Z.eqb_eq, byte_val_02 in E.
      rewrite Forall_forall in Hnoise. elim (Hnoise (nth j noise x00)); [|exact E].
      now apply nth_In.
    + unfold Temp.scan_range. apply in_seq. rewrite !length_app, Hlen. lia.
  - unfold Temp.scan_range. rewrite !length_app, Hlen. lia.
Qed.

(** X2 on three bytes of noise in front of a frame followed by one byte. *)
Lemma X2_find_frame_skips_noise_witness :
  let noise := [xff; x00; x03] in
  let frame := [x02; x00; x01; xf4; x01; xf4; x00; x03] in
  Forall (fun b => b <> x02) noise
  /\ Temp.valid_frame frame = true
  /\ snd (Temp.find_frame (noise ++ frame ++ [x41])) = (Some frame, 11%nat).
Proof.
  cbv zeta.
  assert (Hn : Forall (fun b => b <> x02) [xff; x00; x03])
    by (repeat constructor; discriminate).
  assert (Hv : Temp.valid_frame [x02; x00; x01; xf4; x01; xf4; x00; x03] = true)
    by reflexivity.
  split; [exact Hn|]. split; [exact Hv|].
  exact (X2_find_frame_skips_noise _ _ [x41] Hn Hv).
Defined.

(** * Binary-coded decimal *)

Section Bcd.

Local Open Scope Z_scope.

Lemma nibbles (hi lo : Z) :
  0 <= lo < 16 ->
  Z.shiftr (16 * hi + lo) 4 = hi /\ Z.land (16 * hi + lo) 15 = lo.
Proof.
  intros Hlo. split.
  - rewrite Z.shiftr_div_pow2 by lia. change (2 ^ 4) with 16.
    rewrite Z.mul_comm, Z.div_add_l by lia. rewrite Z.div_small by lia. lia.
  - change 15 with (Z.ones 4). rewrite Z.land_ones by lia. change (2 ^ 4) with 16.
    rewrite Z.add_comm, Z.mul_comm, Z.mod_add by lia. apply Z.mod_small. lia.
Qed.

Lemma bcd_to_int_nibbles (hi lo : Z) :
  0 <= lo < 16 -> Temp.bcd_to_int (16 * hi + lo) = 10 * hi + lo.
Proof.
  intros Hlo. unfold Temp.bcd_to_int.
  destruct (nibbles hi lo Hlo) as [-> ->]. lia.
Qed.

Lemma bcd_to_int_roundtrip (n : Z) :
  0 <= n < 100 -> Temp.bcd_to_int (16 * (n / 10) + n mod 10) = n.
Proof.
  intros Hn. rewrite bcd_to_int_nibbles.
  - pose proof (Z.div_mod n 10). lia.
  - pose proof (Z.mod_pos_bound n 10). lia.
Qed.

End Bcd.

(** X3: [bcd_to_int] reads a byte as ten times its high nibble plus its low
    nibble; so it decodes the packed BCD byte of every n below 100 back to n,
    and on a byte (0..255) its value is between 0 and 165. *)
Theorem X3_bcd_to_int_decodes_packed_digits :
  (forall hi lo : Z, (0 <= lo < 16)%Z ->
     Temp.bcd_to_int (16 * hi + lo) = (10 * hi + lo)%Z)
  /\ (forall n : Z, (0 <= n < 100)%Z ->
     Temp.bcd_to_int (16 * (n / 10) + n mod 10) = n)
  /\ (forall b : byte, (0 <= Temp.bcd_to_int (Temp.byte_val b) <= 165)%Z).
Proof.
  split; [exact bcd_to_int_nibbles|]. split; [exact bcd_to_int_roundtrip|].
  - intros b. pose proof (byte_val_range b) as Hb.
    pose proof (Z.div_mod (Temp.byte_val b) 16) as Hd.
    pose proof (Z.mod_pos_bound (Temp.byte_val b) 16) as Hm.
    rewrite Hd by lia. rewrite bcd_to_int_nibbles by lia.
    assert (0 <= Temp.byte_val b / 16 <= 15)%Z.
    { split; [apply Z.div_pos; lia|]. apply Z.lt_succ_r.
      apply Z.div_lt_upper_bound; lia. }
    lia.
Qed.

(** X3 at the digits 4 and 2 (the byte 0x42) and at n = 42. *)
Lemma X3_bcd_to_int_decodes_packed_digits_witness :
  (0 <= 2 < 16)%Z /\ Temp.bcd_to_int 0x42 = 42%Z
  /\ (0 <= 42 < 100)%Z /\ Temp.bcd_to_int (16 * (42 / 10) + 42 mod 10) = 42%Z.
Proof.
  split; [lia|]. split.
  - apply (proj1 X3_bcd_to_int_decodes_packed_digits 4%Z 2%Z). lia.
  - split; [lia|]. apply (proj1 (proj2 X3_bcd_to_int_decodes_packed_digits) 42%Z). lia.
Defined.

(** X4: [bcd_bytes_to_int] is a hundred times [bcd_to_int] of its first byte
    plus [bcd_to_int] of its second; it decodes the two packed BCD bytes of
    every n below 10000 back to n. *)
Theorem X4_bcd_bytes_to_int_composes :
  (forall b1 b2 : Z,
     Temp.bcd_bytes_to_int b1 b2
     = (100 * Temp.bcd_to_int b1 + Temp.bcd_to_int b2)%Z)
  /\ (forall n : Z, (0 <= n < 10000)%Z ->
     Temp.bcd_bytes_to_int (16 * (n / 100 / 10) + (n / 100) mod 10)
                           (16 * (n mod 100 / 10) + (n mod 100) mod 10) = n).
Proof.
  assert (H : forall b1 b2 : Z,
             Temp.bcd_bytes_to_int b1 b2
             = (100 * Temp.bcd_to_int b1 + Temp.bcd_to_int b2)%Z)
    by (intros; unfold Temp.bcd_bytes_to_int, Temp.bcd_to_int; lia).
  split; [exact H|]. intros n Hn. rewrite H.
  assert (H1 : (0 <= n / 100 < 100)%Z).
  { split; [apply Z.div_pos; lia|apply Z.div_lt_upper_bound; lia]. }
  pose proof (Z.mod_pos_bound n 100) as H2.
  rewrite (bcd_to_int_roundtrip (n / 100)) by exact H1.
  rewrite (bcd_to_int_roundtrip (n mod 100)) by lia.
  pose proof (Z.div_mod n 100). lia.
Qed.

(** X4 at n = 1234, the bytes 0x12 and 0x34. *)
Lemma X4_bcd_bytes_to_int_composes_witness :
  (0 <= 1234 < 10000)%Z /\ Temp.bcd_bytes_to_int 0x12 0x34 = 1234%Z.
Proof.
  split; [lia|].
  apply (proj2 X4_bcd_bytes_to_int_composes 1234%Z). lia.
Defined.

(** * The display-mode decoding *)

Section DisplayMode.

Local Open Scope Z_scope.

Lemma low_two_bits (m : Z) : Z.land m 3 = 0 \/ Z.land m 3 = 1 \/ Z.land m 3 = 2 \/ Z.land m 3 = 3.
Proof.
  assert (H : Z.land m 3 = m mod 4)
    by (change (Z.land m 3) with (Z.land m (Z.ones 2)); now rewrite Z.land_ones by lia).
  pose proof (Z.mod_pos_bound m 4). lia.
Qed.

(** Every four-digit value, at each place of the point and with each sign,
    gives a temperature between -9999 and 9999. *)
Lemma scaled_value_bounded (sign point value : Z) :
  sign = -1 \/ sign = 1 -> 0 <= point <= 3 -> 0 <= value <= 9999 ->
  Py.between (-9999) 9999
    (PrimFloat.mul (Temp.float_of_signed sign) (Temp.truediv value (10 ^ point))) = true.
Proof.
  intros Hs Hp Hv.
  assert (T : forall s p,
             Temp.all_from
               (fun v => Py.between (-9999) 9999
                           (PrimFloat.mul (Temp.float_of_signed s)
                                          (Temp.truediv v (10 ^ p))))
               0 (Z.to_nat 10000) = true ->
             Py.between (-9999) 9999
               (PrimFloat.mul (Temp.float_of_signed s) (Temp.truediv value (10 ^ p))) = true).
  { intros s p H. apply (all_from_spec _ _ _ H). lia. }
  assert (Hpoint : point = 0 \/ point = 1 \/ point = 2 \/ point = 3) by lia.
  destruct Hs as [-> | ->]; destruct Hpoint as [-> | [-> | [-> | ->]]];
    apply T; vm_compute; reflexivity.
Qed.

End DisplayMode.

(** X5: [parse_temperature] gives nothing exactly for a frame of fewer than
    8 bytes or one that does not start with 0x02; it accepts every frame
    [parse_frame] decodes, and longer ones as well; and when the four digit
    bytes are single digits (0..9) the temperature lies between -9999 and
    9999. *)
Theorem X5_parse_temperature_accepts_and_bounds (frame : list byte) :
  (snd (Temp.parse_temperature frame) = None
   <-> (length frame < 8)%nat \/ Temp.item frame 0 <> 2%Z)
  /\ (forall a b, Temp.parse_frame frame = Temp.Decoded a b frame ->
        exists t, snd (Temp.parse_temperature frame) = Some t)
  /\ ((8 <= length frame)%nat -> Temp.item frame 0 = 2%Z ->
      (forall k, (3 <= k <= 6)%nat -> (Temp.item frame k <= 9)%Z) ->
      exists t, snd (Temp.parse_temperature frame) = Some t
                /\ Py.between (-9999) 9999 t = true).
Proof.
  unfold Temp.parse_temperature.
  destruct (length frame <? 8)%nat eqn:El.
  - apply Nat.ltb_lt in El. cbn [snd]. split; [|split].
    + split; [now left|reflexivity].
    + intros a b H.
      destruct (proj1 (parse_frame_decodes_iff frame)) as [Hl _]; [eauto|lia].
    + lia.
  - apply Nat.ltb_ge in El.
    destruct (Temp.item frame 0 =? 2)%Z eqn:E0; cbn [negb snd].
    + apply Z.eqb_eq in E0. split; [|split].
      * split; [discriminate|]. intros [H|H]; [lia|congruence].
      * intros a b _. eauto.
      * intros _ _ Hd. eexists. split; [reflexivity|].
        assert (Hdigit : forall k, (3 <= k <= 6)%nat ->
                  Temp.bcd_to_int (Temp.item frame k) = Temp.item frame k
                  /\ (0 <= Temp.item frame k <= 9)%Z).
        { intros k Hk. specialize (Hd k Hk).
          pose proof (byte_val_range (nth k frame x00)) as Hr. fold (Temp.item frame k) in Hr.
          split; [|lia].
          replace (Temp.item frame k) with (16 * 0 + Temp.item frame k)%Z at 1 by lia.
          rewrite bcd_to_int_nibbles; lia. }
        destruct (Hdigit 3%nat) as [-> ?]; [lia|].
        destruct (Hdigit 4%nat) as [-> ?]; [lia|].
        destruct (Hdigit 5%nat) as [-> ?]; [lia|].
        destruct (Hdigit 6%nat) as [-> ?]; [lia|].
        apply scaled_value_bounded.
        -- destruct (Z.land (Temp.item frame 2) 4 =? 0)%Z; cbn [negb]; [now right|now left].
        -- pose proof (low_two_bits (Temp.item frame 2)). lia.
        -- lia.
    + apply Z.eqb_neq in E0. split; [|split].
      * split; [now right|reflexivity].
      * intros a b H.
        destruct (proj1 (parse_frame_decodes_iff frame)) as [_ H2]; [eauto|congruence].
      * intros _ H. congruence.
Qed.

(** X5 on the frame [02 00 06 01 02 03 04 03]: sign bit set, point at place
    2, digits 1 2 3 4, that is -12.34. *)
Lemma X5_parse_temperature_accepts_and_bounds_witness :
  let frame := [x02; x00; x06; x01; x02; x03; x04; x03] in
  (8 <= length frame)%nat /\ Temp.item frame 0 = 2%Z
  /\ (forall k, (3 <= k <= 6)%nat -> (Temp.item frame k <= 9)%Z)
  /\ snd (Temp.parse_temperature frame) = Some (-12.34)%float
  /\ exists t, snd (Temp.parse_temperature frame) = Some t
               /\ Py.between (-9999) 9999 t = true.
Proof.
  cbv zeta.
  assert (H1 : (8 <= length [x02; x00; x06; x01; x02; x03; x04; x03])%nat) by (cbn; lia).
  assert (H2 : Temp.item [x02; x00; x06; x01; x02; x03; x04; x03] 0 = 2%Z) by reflexivity.
  assert (H3 : forall k, (3 <= k <= 6)%nat ->
                 (Temp.item [x02; x00; x06; x01; x02; x03; x04; x03] k <= 9)%Z).
  { intros k Hk.
    assert (Hc : k = 3%nat \/ k = 4%nat \/ k = 5%nat \/ k = 6%nat) by lia.
    destruct Hc as [-> | [-> | [-> | ->]]]; vm_compute; discriminate. }
  split; [exact H1|]. split; [exact H2|]. split; [exact H3|]. split; [reflexivity|].
  exact (proj2 (proj2 (X5_parse_temperature_accepts_and_bounds _)) H1 H2 H3).
Defined.

(** * Further properties of the polling loop *)

Section PollingLoop.

Variable supabase : Temp.row -> Temp.response.

Lemma cycle_state (now : string) (chunk : list byte) (st : Temp.loop_state) :
  let r := Temp.cycle supabase now chunk st in
  Temp.consecutive_errors (fst (fst r))
  = match chunk with
    | [] => S (Temp.consecutive_errors st)
    | _ :: _ => Temp.consecutive_errors st
    end
  /\ Temp.buffer (fst (fst r))
     = match chunk with
       | [] => Temp.buffer st
       | _ :: _ => Temp.trim (Temp.buffer st ++ chunk)
       end
  /\ snd r = negb (5 <=? Temp.consecutive_errors (fst (fst r))).
Proof.
  cbv zeta. unfold Temp.cycle. destruct chunk as [|c chunk]; cbn [Temp.consecutive_errors].
  - destruct (5 <=? Temp.consecutive_errors st + 1) eqn:E;
      cbn [fst snd Temp.consecutive_errors Temp.buffer];
      rewrite E, Nat.add_1_r; auto.
  - destruct (5 <=? Temp.consecutive_errors st) eqn:E;
      cbn [fst snd Temp.consecutive_errors Temp.buffer];
      rewrite E; auto.
Qed.

Lemma cycles_errors (reads : list (string * list byte)) :
  forall st, Temp.consecutive_errors st < 5 ->
  Temp.consecutive_errors (fst (Temp.cycles supabase reads st))
  = Nat.min 5 (Temp.consecutive_errors st + Temp.empty_reads reads).
Proof.
  induction reads as [|[now chunk] rest IH]; intros st Hst.
  - cbn [Temp.cycles fst]. unfold Temp.empty_reads. cbn [filter length]. lia.
  - cbn [Temp.cycles].
    destruct (cycle_state now chunk st) as (He & _ & Hc).
    destruct (Temp.cycle supabase now chunk st) as [[st' out] continue].
    cbn [fst snd] in He, Hc.
    assert (Hcount : Temp.empty_reads ((now, chunk) :: rest)
                     = match chunk with [] => 1 | _ :: _ => 0 end + Temp.empty_reads rest)
      by (unfold Temp.empty_reads; destruct chunk; reflexivity).
    rewrite Hcount. destruct continue.
    + symmetry in Hc. apply negb_true_iff, Nat.leb_gt in Hc.
      specialize (IH st' Hc).
      destruct (Temp.cycles supabase rest st') as [st'' out']. cbn [fst] in *.
      rewrite IH, He. destruct chunk; lia.
    + symmetry in Hc. apply negb_false_iff, Nat.leb_le in Hc. cbn [fst].
      destruct chunk; lia.
Qed.

Lemma app_suffix {A : Type} (d b k c : list A) :
  d ++ k = b ++ c -> length c <= length k -> exists x, k = x ++ c.
Proof.
  revert b. induction d as [|a d IH]; intros b H Hlen.
  - now exists b.
  - destruct b as [|a' b].
    + cbn [app] in H. subst c. cbn [length] in Hlen. rewrite length_app in Hlen. lia.
    + injection H as _ H. now apply (IH b).
Qed.

Lemma trim_suffix (buffer : list byte) :
  exists dropped, buffer = dropped ++ Temp.trim buffer
                  /\ length (Temp.trim buffer) = Nat.min 32 (length buffer).
Proof.
  unfold Temp.trim. destruct (32 <? length buffer) eqn:E.
  - apply Nat.ltb_lt in E. exists (firstn (length buffer - 32) buffer).
    rewrite firstn_skipn, length_skipn. split; [reflexivity|lia].
  - apply Nat.ltb_ge in E. exists []. split; [reflexivity|lia].
Qed.

Lemma cycles_rows (reads : list (string * list byte)) :
  forall st r,
    In r (Temp.inserts (snd (Temp.cycles supabase reads st))) ->
    Temp.in_range (Temp.t1 r) (Temp.t2 r) = true
    /\ exists chunk, chunk <> [] /\ In (Temp.timestamp r, chunk) reads.
Proof.
  induction reads as [|[now chunk] rest IH]; intros st r Hr; [contradiction|].
  cbn [Temp.cycles] in Hr.
  assert (Hcycle : In r (Temp.inserts (snd (fst (Temp.cycle supabase now chunk st)))) ->
                   Temp.in_range (Temp.t1 r) (Temp.t2 r) = true
                   /\ Temp.timestamp r = now /\ chunk <> []).
  { destruct chunk as [|c chunk].
    - unfold Temp.cycle. cbn [Temp.consecutive_errors].
      destruct (5 <=? _); cbn; tauto.
    - rewrite cycle_inserts by discriminate. rewrite upload_inserts.
      destruct (Temp.select_upload _) as [[a b]|]; [|contradiction].
      destruct (Temp.in_range a b) eqn:E; [|contradiction].
      intros [<-|[]]. cbn. repeat split; [exact E|discriminate]. }
  destruct (Temp.cycle supabase now chunk st) as [[st' out] continue].
  cbn [fst snd] in Hcycle.
  assert (Hhere : In r (Temp.inserts out) ->
                  Temp.in_range (Temp.t1 r) (Temp.t2 r) = true
                  /\ exists chunk', chunk' <> [] /\ In (Temp.timestamp r, chunk') ((now, chunk) :: rest)).
  { intros H. destruct (Hcycle H) as (Hin & Hts & Hne).
    split; [exact Hin|]. exists chunk. split; [exact Hne|]. left. now rewrite Hts. }
  destruct continue.
  - specialize (IH st' r).
    destruct (Temp.cycles supabase rest st') as [st'' out']. cbn [snd] in *.
    rewrite inserts_app in Hr. apply in_app_or in Hr as [Hr|Hr]; [now apply Hhere|].
    destruct (IH Hr) as (Hin & chunk' & Hne & Hc).
    split; [exact Hin|]. exists chunk'. split; [exact Hne|]. now right.
  - now apply Hhere.
Qed.

Lemma cycles_rows_count (reads : list (string * list byte)) :
  forall st,
    length (Temp.inserts (snd (Temp.cycles supabase reads st)))
    <= length reads - Temp.empty_reads reads.
Proof.
  induction reads as [|[now chunk] rest IH]; intros st; [cbn; lia|].
  cbn [Temp.cycles].
  assert (Hcycle : length (Temp.inserts (snd (fst (Temp.cycle supabase now chunk st))))
                   <= match chunk with [] => 0 | _ :: _ => 1 end).
  { destruct chunk as [|c chunk].
    - unfold Temp.cycle. cbn [Temp.consecutive_errors].
      destruct (5 <=? _); cbn; lia.
    - rewrite cycle_inserts by discriminate. rewrite upload_inserts.
      destruct (Temp.select_upload _) as [[a b]|]; [|cbn; lia].
      destruct (Temp.in_range a b); cbn; lia. }
  assert (Hcount : Temp.empty_reads ((now, chunk) :: rest)
                   = match chunk with [] => 1 | _ :: _ => 0 end + Temp.empty_reads rest)
    by (unfold Temp.empty_reads; destruct chunk; reflexivity).
  assert (Hle : Temp.empty_reads rest <= length rest)
    by (unfold Temp.empty_reads; apply filter_length_le).
  destruct (Temp.cycle supabase now chunk st) as [[st' out] continue].
  cbn [fst snd] in Hcycle. rewrite Hcount. cbn [length].
  destruct continue.
  - specialize (IH st').
    destruct (Temp.cycles supabase rest st') as [st'' out']. cbn [snd] in *.
    rewrite inserts_app, length_app. destruct chunk; lia.
  - cbn [snd]. destruct chunk; lia.
Qed.

End PollingLoop.

(** X6: the counter [consecutive_errors] is never reset: started at 0, after
    any run of the loop it holds the number of reads that returned nothing
    so far, those between reads that returned bytes included, and the loop
    stops at the fifth of them; a single cycle leaves the loop exactly when
    the counter has reached 5. *)
Theorem X6_error_counter_is_cumulative
  (supabase : Temp.row -> Temp.response) :
  (forall reads,
     Temp.consecutive_errors (fst (Temp.cycles supabase reads Temp.initial))
     = Nat.min 5 (Temp.empty_reads reads))
  /\ (forall now c chunk st,
     Temp.consecutive_errors (fst (fst (Temp.cycle supabase now (c :: chunk) st)))
     = Temp.consecutive_errors st)
  /\ (forall now chunk st,
     snd (Temp.cycle supabase now chunk st)
     = negb (5 <=? Temp.consecutive_errors (fst (fst (Temp.cycle supabase now chunk st))))).
Proof.
  split; [|split].
  - intros reads. rewrite cycles_errors by (cbn; lia). reflexivity.
  - intros now c chunk st. apply (cycle_state supabase now (c :: chunk) st).
  - intros now chunk st. apply (cycle_state supabase now chunk st).
Qed.

(** X7: the trim keeps the newest bytes: after a cycle that received bytes
    the buffer is the tail of the old buffer followed by the chunk, of
    length 32 or of the whole length if that is less; a chunk of at most 32
    bytes is therefore retained whole, at the end of the buffer. *)
Theorem X7_trim_keeps_newest_bytes
  (supabase : Temp.row -> Temp.response) (now : string)
  (chunk : list byte) (st : Temp.loop_state) :
  chunk <> [] ->
  let kept := Temp.buffer (fst (fst (Temp.cycle supabase now chunk st))) in
  (exists dropped, Temp.buffer st ++ chunk = dropped ++ kept)
  /\ length kept = Nat.min 32 (length (Temp.buffer st ++ chunk))
  /\ (length chunk <= 32 -> exists before, kept = before ++ chunk).
Proof.
  intros Hne. cbv zeta.
  destruct (cycle_state supabase now chunk st) as (_ & Hb & _).
  destruct chunk as [|c chunk]; [congruence|]. rewrite Hb.
  destruct (trim_suffix (Temp.buffer st ++ c :: chunk)) as (dropped & Hd & Hl).
  split; [now exists dropped|]. split; [exact Hl|].
  intros Hc. apply (app_suffix dropped (Temp.buffer st)); [now symmetry|].
  rewrite Hl, length_app. lia.
Qed.

(** X7 on a buffer of 30 bytes that receives 8 more. *)
Lemma X7_trim_keeps_newest_bytes_witness :
  let st := {| Temp.buffer := repeat xff 30; Temp.consecutive_errors := 0;
               Temp.last_valid_frame := None |} in
  let chunk := [x02; x00; x01; xf4; x01; xf4; x00; x03] in
  chunk <> [] /\ length chunk <= 32
  /\ exists before,
       Temp.buffer (fst (fst (Temp.cycle (fun _ => Temp.Empty) "now" chunk st)))
       = before ++ chunk.
Proof.
  cbv zeta. split; [discriminate|]. split; [cbn; lia|].
  apply (X7_trim_keeps_newest_bytes (fun _ => Temp.Empty) "now"
           [x02; x00; x01; xf4; x01; xf4; x00; x03]); [discriminate|cbn; lia].
Defined.

(** X8: whatever the reads, every row the loop hands to the table has t1
    and t2 within [10, 100] and carries the clock reading of a cycle that
    received bytes; and there are at most as many rows as such cycles. *)
Theorem X8_loop_uploads_only_rows_in_range
  (supabase : Temp.row -> Temp.response)
  (reads : list (string * list byte)) (st : Temp.loop_state) :
  let uploaded := Temp.inserts (snd (Temp.cycles supabase reads st)) in
  (forall r, In r uploaded ->
     Py.between 10 100 (Temp.t1 r) = true
     /\ Py.between 10 100 (Temp.t2 r) = true
     /\ exists chunk, chunk <> [] /\ In (Temp.timestamp r, chunk) reads)
  /\ length uploaded <= length reads - Temp.empty_reads reads.
Proof.
  cbv zeta. split; [|apply cycles_rows_count].
  intros r Hr. destruct (cycles_rows supabase reads st r Hr) as (Hin & Hc).
  unfold Temp.in_range in Hin. apply andb_true_iff in Hin as [H1 H2]. auto.
Qed.

(** X8 on two reads: two frames in range, then nothing. *)
Lemma X8_loop_uploads_only_rows_in_range_witness :
  let chunk := [x02; x00; x00; xc8; x00; xc8; x00; x03;
                x02; x00; x01; xf4; x03; xe7; x00; x03] in
  let reads := [("t0"%string, chunk); ("t1"%string, [])] in
  let r := {| Temp.timestamp := "t0"; Temp.t1 := 50; Temp.t2 := 99.9 |} in
  In r (Temp.inserts (snd (Temp.cycles (fun _ => Temp.Data) reads Temp.initial)))
  /\ Py.between 10 100 (Temp.t1 r) = true
  /\ Py.between 10 100 (Temp.t2 r) = true.
Proof.
  cbv zeta.
  assert (H : In {| Temp.timestamp := "t0"; Temp.t1 := 50; Temp.t2 := 99.9 |}
                (Temp.inserts (snd (Temp.cycles (fun _ => Temp.Data)
                   [("t0"%string, [x02; x00; x00; xc8; x00; xc8; x00; x03;
                                   x02; x00; x01; xf4; x03; xe7; x00; x03]);
                    ("t1"%string, [])] Temp.initial))))
    by (vm_compute; left; reflexivity).
  split; [exact H|].
  destruct (proj1 (X8_loop_uploads_only_rows_in_range (fun _ => Temp.Data) _ _) _ H)
    as (H1 & H2 & _).
  split; [exact H1|exact H2].
Defined.

Section Selection.

Lemma print_windows_decoded (buffer w : list byte) :
  In w (Temp.windows buffer) -> Temp.starts_with_02 w = true ->
  In (Temp.Decoded (Temp.decode_t1 w) (Temp.decode_t2 w) w) (Temp.print_windows buffer).
Proof.
  unfold Temp.windows, Temp.print_windows. intros Hw Hs.
  apply in_map_iff in Hw as (i & <- & Hi).
  apply in_flat_map. exists i. split; [exact Hi|].
  unfold Temp.starts_with_02 in Hs. rewrite Hs. left.
  unfold Temp.parse_frame. rewrite (slice8_length _ _ Hi), Hs. reflexivity.
Qed.

End Selection.

(** X9: the upload scan needs two windows that start with 0x02: a buffer of
    at most 8 bytes, a lone frame for one, selects nothing; and whatever the
    scan selects was decoded from an 8-byte window of the buffer and printed
    with the same two values by the scan before it. *)
Theorem X9_selection_needs_two_windows (buffer : list byte) :
  (length buffer <= 8 -> Temp.select_upload buffer = None)
  /\ (forall a b, Temp.select_upload buffer = Some (a, b) ->
        9 <= length buffer
        /\ exists w, In w (Temp.windows buffer) /\ length w = 8
                     /\ Temp.item w 0 = 2%Z
                     /\ a = Temp.decode_t1 w /\ b = Temp.decode_t2 w
                     /\ In (Temp.Decoded a b w) (Temp.print_windows buffer)).
Proof.
  rewrite select_upload_second_start.
  assert (Hlen : length (filter Temp.starts_with_02 (Temp.windows buffer))
                 <= length buffer - 7).
  { eapply Nat.le_trans; [apply filter_length_le|].
    unfold Temp.windows, Temp.scan_range. now rewrite length_map, length_seq. }
  split.
  - intros Hb.
    assert (H : nth_error (filter Temp.starts_with_02 (Temp.windows buffer)) 1 = None)
      by (apply nth_error_None; lia).
    now rewrite H.
  - intros a b H.
    destruct (nth_error (filter Temp.starts_with_02 (Temp.windows buffer)) 1)
      as [w|] eqn:E; [|discriminate].
    injection H as <- <-.
    assert (Hlt : 1 < length (filter Temp.starts_with_02 (Temp.windows buffer)))
      by (apply nth_error_Some; congruence).
    split; [lia|].
    apply nth_error_In, filter_In in E as [Hw Hs].
    exists w. split; [exact Hw|]. split.
    { unfold Temp.windows in Hw. apply in_map_iff in Hw as (i & <- & Hi).
      now apply slice8_length. }
    split; [now apply Z.eqb_eq|]. split; [reflexivity|]. split; [reflexivity|].
    now apply print_windows_decoded.
Qed.

(** X9 on a lone frame, and on two frames in one buffer. *)
Lemma X9_selection_needs_two_windows_witness :
  let lone := [x02; x00; x01; xf4; x01; xf4; x00; x03] in
  let two := [x02; x00; x00; xc8; x00; xc8; x00; x03;
              x02; x00; x01; xf4; x03; xe7; x00; x03] in
  length lone <= 8 /\ Temp.select_upload lone = None
  /\ Temp.select_upload two = Some (50, 99.9)%float
  /\ 9 <= length two.
Proof.
  cbv zeta. split; [cbn; lia|]. split.
  - apply (proj1 (X9_selection_needs_two_windows _)). cbn; lia.
  - assert (H : Temp.select_upload [x02; x00; x00; xc8; x00; xc8; x00; x03;
                                    x02; x00; x01; xf4; x03; xe7; x00; x03]
                = Some (50, 99.9)%float) by reflexivity.
    split; [exact H|].
    exact (proj1 (proj2 (X9_selection_needs_two_windows _) _ _ H)).
Defined.

(** * Further properties of the flow collector *)

Section RingBuffer.

Lemma deque_append_length (maxlen : nat) (q : list string) (x : string) :
  length (Flow.deque_append maxlen q x) = Nat.min maxlen (length q + 1).
Proof.
  unfold Flow.deque_append. rewrite length_skipn, length_app. cbn [length]. lia.
Qed.

End RingBuffer.

(** X10: the ring buffer is a bounded queue: appending a line gives
    min(maxlen, len + 1) lines, the newest last; below the bound nothing is
    lost, at the bound the oldest line falls out, and with a bound of 0
    nothing is kept; so [receive] never lets the ring buffer grow beyond
    [buffer_size]. *)
Theorem X10_ring_buffer_is_bounded :
  (forall maxlen q x,
     length (Flow.deque_append maxlen q x) = Nat.min maxlen (length q + 1)
     /\ exists dropped, (q ++ [x] = dropped ++ Flow.deque_append maxlen q x)%list)
  /\ (forall maxlen q x, length q < maxlen ->
        Flow.deque_append maxlen q x = (q ++ [x])%list)
  /\ (forall maxlen q x, 0 < maxlen -> length q = maxlen ->
        Flow.deque_append maxlen q x = (tl q ++ [x])%list)
  /\ (forall q x, Flow.deque_append 0 q x = [])
  /\ (forall ev c w,
        length (Flow.ring_buffer c) <= Flow.buffer_size c ->
        length (Flow.ring_buffer (fst (Flow.receive ev c w)))
        <= Flow.buffer_size (fst (Flow.receive ev c w))
        /\ Flow.buffer_size (fst (Flow.receive ev c w)) = Flow.buffer_size c).
Proof.
  split; [|split; [|split; [|split]]].
  - intros maxlen q x. split; [apply deque_append_length|].
    exists (firstn (length (q ++ [x]) - maxlen) (q ++ [x])).
    unfold Flow.deque_append. now rewrite firstn_skipn.
  - intros maxlen q x H. unfold Flow.deque_append. rewrite length_app. cbn [length].
    replace (length q + 1 - maxlen) with 0 by lia. reflexivity.
  - intros maxlen q x Hpos H. unfold Flow.deque_append. rewrite length_app. cbn [length].
    replace (length q + 1 - maxlen) with 1 by lia.
    destruct q as [|a q]; [cbn in H; lia|reflexivity].
  - intros q x. unfold Flow.deque_append. rewrite Nat.sub_0_r. apply skipn_all.
  - intros ev c w H. destruct ev as [|line|e]; cbn [Flow.receive fst]; [auto| |auto].
    destruct (Flow.strip _); cbn [fst Flow.ring_buffer Flow.buffer_size]; [auto|].
    split; [|reflexivity]. rewrite deque_append_length. lia.
Qed.

(** X10 on a queue of two lines: with a bound of 3 and with a bound of 2. *)
Lemma X10_ring_buffer_is_bounded_witness :
  length ["a"; "b"]%string < 3
  /\ Flow.deque_append 3 ["a"; "b"]%string "c" = ["a"; "b"; "c"]%string
  /\ 0 < 2 /\ length ["a"; "b"]%string = 2
  /\ Flow.deque_append 2 ["a"; "b"]%string "c" = ["b"; "c"]%string.
Proof.
  split; [cbn; lia|]. split.
  - apply (proj1 (proj2 X10_ring_buffer_is_bounded)). cbn; lia.
  - split; [lia|]. split; [reflexivity|].
    apply (proj1 (proj2 (proj2 X10_ring_buffer_is_bounded))); [lia|reflexivity].
Defined.

Section Draining.

Variable utc_now : nat -> string.
Variable supabase : Flow.row -> Flow.response.

Lemma process_lines_cons (line : string) (ring : list string) (cur : Flow.record) (w : Flow.world) :
  Flow.process_lines utc_now supabase (line :: ring) cur w
  = match Flow.parse_data_line line cur with
    | Flow.Raise e => (Some e, ring, cur, w)
    | Flow.Ok (complete, cur1) =>
        if complete && Flow.all_values cur1
        then Flow.process_lines utc_now supabase ring Flow.empty_record
               (snd (Flow.store_record utc_now supabase cur1 w))
        else Flow.process_lines utc_now supabase ring cur1 w
    end.
Proof.
  cbn [Flow.process_lines]. destruct (Flow.parse_data_line line cur) as [[complete cur1]|e];
    [|reflexivity].
  destruct (complete && Flow.all_values cur1); [|reflexivity].
  now destruct (Flow.store_record utc_now supabase cur1 w).
Qed.

Lemma process_lines_outcome (ring : list string) :
  forall cur w,
    match Flow.process_lines utc_now supabase ring cur w with
    | (None, rest, _, _) => rest = []
    | (Some e, rest, cur', w') =>
        exists done line,
          ring = (done ++ line :: rest)%list
          /\ Flow.process_lines utc_now supabase done cur w = (None, [], cur', w')
          /\ Flow.parse_data_line line cur' = Flow.Raise e
    end.
Proof.
  induction ring as [|line ring IH]; intros cur w; [reflexivity|].
  rewrite process_lines_cons.
  destruct (Flow.parse_data_line line cur) as [[complete cur1]|e] eqn:Ep.
  - set (next := if complete && Flow.all_values cur1
                 then (Flow.empty_record, snd (Flow.store_record utc_now supabase cur1 w))
                 else (cur1, w)).
    assert (Hstep : forall l,
              (if complete && Flow.all_values cur1
               then Flow.process_lines utc_now supabase l Flow.empty_record
                      (snd (Flow.store_record utc_now supabase cur1 w))
               else Flow.process_lines utc_now supabase l cur1 w)
              = Flow.process_lines utc_now supabase l (fst next) (snd next))
      by (intros l; unfold next; now destruct (complete && Flow.all_values cur1)).
    rewrite Hstep. specialize (IH (fst next) (snd next)).
    destruct (Flow.process_lines utc_now supabase ring (fst next) (snd next))
      as [[[[e|] rest] cur'] w']; [|exact IH].
    destruct IH as (done & bad & -> & Hdone & Hbad).
    exists (line :: done), bad. split; [reflexivity|]. split; [|exact Hbad].
    now rewrite process_lines_cons, Ep, Hstep.
  - exists [], line. repeat split; assumption.
Qed.

Lemma rows_are_complete (ring : list string) :
  forall cur w r,
    In r (Flow.rows (Flow.trace (snd (Flow.process_lines utc_now supabase ring cur w)))) ->
    In r (Flow.rows (Flow.trace w))
    \/ exists f v, Flow.row_flow r = Some f /\ Flow.row_velocity r = Some v
                   /\ Py.float_truthy f = true /\ Py.float_truthy v = true.
Proof.
  induction ring as [|line ring IH]; intros cur w r Hr; [now left|].
  rewrite process_lines_cons in Hr.
  destruct (Flow.parse_data_line line cur) as [[complete cur1]|e]; [|now left].
  destruct (complete && Flow.all_values cur1) eqn:E; [|now apply IH in Hr].
  apply IH in Hr as [Hr|Hr]; [|now right].
  rewrite store_record_rows in Hr. apply in_app_or in Hr as [Hr|[<-|[]]]; [now left|].
  right. apply andb_true_iff in E as [_ E].
  apply all_values_inv in E as (_ & Hf & Hv). cbn [Flow.row_flow Flow.row_velocity].
  destruct (Flow.flow cur1) as [f|]; [|discriminate].
  destruct (Flow.velocity cur1) as [v|]; [|discriminate].
  exists f, v. auto.
Qed.

Lemma emit_emit (w : Flow.world) (a b : list Flow.output) :
  Flow.emit (Flow.emit w a) b = Flow.emit w (a ++ b).
Proof. unfold Flow.emit. cbn. now rewrite app_assoc. Qed.

Lemma parse_blank_line (line : string) (cur : Flow.record) :
  Flow.strip (list_ascii_of_string line) = [] ->
  Flow.parse_data_line line cur = Flow.Ok (false, cur).
Proof. intros H. unfold Flow.parse_data_line. now rewrite H. Qed.

Lemma run_is_batch (lines : list string) (size : nat) :
  0 < size ->
  forall cur w,
    Flow.run utc_now supabase (map Flow.Line lines)
      {| Flow.buffer_size := size; Flow.ring_buffer := []; Flow.current_record := cur |} w
    = match Flow.process_lines utc_now supabase lines cur w with
      | (None, _, cur', w') =>
          (None,
           {| Flow.buffer_size := size; Flow.ring_buffer := [];
              Flow.current_record := cur' |},
           Flow.emit w' [Flow.ShuttingDown; Flow.Stopped])
      | (Some e, _, cur', w') =>
          (Some e,
           {| Flow.buffer_size := size; Flow.ring_buffer := [];
              Flow.current_record := cur' |},
           Flow.emit w' [Flow.Stopped])
      end.
Proof.
  intros Hsize. induction lines as [|line lines IH]; intros cur w.
  - cbn. now rewrite emit_emit.
  - cbn [map Flow.run Flow.receive Flow.buffer_size Flow.ring_buffer Flow.current_record].
    rewrite process_lines_cons.
    destruct (Flow.strip (list_ascii_of_string line)) as [|ch rest] eqn:Es.
    + rewrite (parse_blank_line line cur Es). cbn [andb].
      unfold Flow.process_buffer at 1. cbn. apply IH.
    + assert (Hq : Flow.deque_append size [] line = [line]).
      { unfold Flow.deque_append. cbn [app length].
        replace (1 - size) with 0 by lia. reflexivity. }
      rewrite Hq. unfold Flow.process_buffer at 1.
      cbn [Flow.ring_buffer Flow.current_record Flow.buffer_size].
      rewrite process_lines_cons.
      destruct (Flow.parse_data_line line cur) as [[complete cur1]|e]; [|reflexivity].
      destruct (complete && Flow.all_values cur1); cbn [Flow.process_lines]; apply IH.
Qed.

End Draining.

(** X11: [process_buffer] either drains the ring buffer and returns, or
    stops at the first line on which [parse_data_line] raises: that line is
    already taken out, the lines after it stay in the ring buffer, and the
    accumulator and the trace are what the lines before it made them. *)
Theorem X11_process_buffer_stops_at_first_bad_line
  (utc_now : nat -> string) (supabase : Flow.row -> Flow.response)
  (ring : list string) (cur : Flow.record) (w : Flow.world) :
  match Flow.process_lines utc_now supabase ring cur w with
  | (None, rest, _, _) => rest = []
  | (Some e, rest, cur', w') =>
      exists done line,
        ring = (done ++ line :: rest)%list
        /\ Flow.process_lines utc_now supabase done cur w = (None, [], cur', w')
        /\ Flow.parse_data_line line cur' = Flow.Raise e
  end.
Proof. apply process_lines_outcome. Qed.

(** X12: [run] fed one line per pass does what [process_buffer] does on the
    same lines at once: the same accumulator, the same rows and prints; it
    ends with the exception of the first line that raises, if there is one,
    and the passes after that line never happen. *)
Theorem X12_run_line_by_line_is_batch
  (utc_now : nat -> string) (supabase : Flow.row -> Flow.response)
  (lines : list string) (size : nat) (cur : Flow.record) (w : Flow.world) :
  0 < size ->
  Flow.run utc_now supabase (map Flow.Line lines)
    {| Flow.buffer_size := size; Flow.ring_buffer := []; Flow.current_record := cur |} w
  = match Flow.process_lines utc_now supabase lines cur w with
    | (None, _, cur', w') =>
        (None,
         {| Flow.buffer_size := size; Flow.ring_buffer := [];
            Flow.current_record := cur' |},
         Flow.emit w' [Flow.ShuttingDown; Flow.Stopped])
    | (Some e, _, cur', w') =>
        (Some e,
         {| Flow.buffer_size := size; Flow.ring_buffer := [];
            Flow.current_record := cur' |},
         Flow.emit w' [Flow.Stopped])
    end.
Proof. intros Hsize. now apply run_is_batch. Qed.

(** X12 on the three lines of a record. *)
Lemma X12_run_line_by_line_is_batch_witness :
  let lines := ["25-01-01 00:00:00"; "Flow 12.5 l/s"; "Vel: 0.35 m/s"]%string in
  let r := {| Flow.row_timestamp := "now"; Flow.row_flow := Some 12.5%float;
              Flow.row_velocity := Some 0.35%float |} in
  0 < 1000
  /\ Flow.process_lines (fun _ => "now"%string) (fun _ => Flow.Data) lines
       Flow.empty_record Flow.new_world
     = (None, [], Flow.empty_record,
        {| Flow.reads := 1; Flow.trace := [Flow.Insert r; Flow.Stored r] |})
  /\ Flow.run (fun _ => "now"%string) (fun _ => Flow.Data) (map Flow.Line lines)
       (Flow.new_collector 1000) Flow.new_world
     = (None, Flow.new_collector 1000,
        {| Flow.reads := 1;
           Flow.trace := [Flow.Insert r; Flow.Stored r; Flow.ShuttingDown; Flow.Stopped] |}).
Proof.
  cbv zeta. split; [lia|].
  assert (H : Flow.process_lines (fun _ => "now"%string) (fun _ => Flow.Data)
                ["25-01-01 00:00:00"; "Flow 12.5 l/s"; "Vel: 0.35 m/s"]%string
                Flow.empty_record Flow.new_world
              = (None, [], Flow.empty_record,
                 {| Flow.reads := 1;
                    Flow.trace :=
                      [Flow.Insert {| Flow.row_timestamp := "now";
                                      Flow.row_flow := Some 12.5%float;
                                      Flow.row_velocity := Some 0.35%float |};
                       Flow.Stored {| Flow.row_timestamp := "now";
                                      Flow.row_flow := Some 12.5%float;
                                      Flow.row_velocity := Some 0.35%float |}] |}))
    by (vm_compute; reflexivity).
  split; [exact H|].
  unfold Flow.new_collector.
  rewrite (X12_run_line_by_line_is_batch (fun _ => "now"%string) (fun _ => Flow.Data)
             _ 1000 Flow.empty_record Flow.new_world) by lia.
  rewrite H. reflexivity.
Defined.

(** X13: only complete records reach the table: every row [process_buffer]
    emits has a flow and a velocity, both different from 0.0. *)
Theorem X13_emitted_rows_are_complete
  (utc_now : nat -> string) (supabase : Flow.row -> Flow.response)
  (ring : list string) (cur : Flow.record) (r : Flow.row) :
  In r (Flow.rows (Flow.trace (snd (Flow.process_lines utc_now supabase ring cur
                                      Flow.new_world)))) ->
  exists f v, Flow.row_flow r = Some f /\ Flow.row_velocity r = Some v
              /\ Py.float_truthy f = true /\ Py.float_truthy v = true.
Proof.
  intros Hr. apply rows_are_complete in Hr as [[]|Hr]. exact Hr.
Qed.

(** X13 on the three lines of a record. *)
Lemma X13_emitted_rows_are_complete_witness :
  let r := {| Flow.row_timestamp := "now"; Flow.row_flow := Some 12.5%float;
              Flow.row_velocity := Some 0.35%float |} in
  In r (Flow.rows (Flow.trace (snd (Flow.process_lines (fun _ => "now"%string)
          (fun _ => Flow.Data)
          ["25-01-01 00:00:00"; "Flow 12.5 l/s"; "Vel: 0.35 m/s"]%string
          Flow.empty_record Flow.new_world))))
  /\ exists f v, Flow.row_flow r = Some f /\ Flow.row_velocity r = Some v
                 /\ Py.float_truthy f = true /\ Py.float_truthy v = true.
Proof.
  cbv zeta.
  assert (H : In {| Flow.row_timestamp := "now"; Flow.row_flow := Some 12.5%float;
                    Flow.row_velocity := Some 0.35%float |}
                (Flow.rows (Flow.trace (snd (Flow.process_lines (fun _ => "now"%string)
                   (fun _ => Flow.Data)
                   ["25-01-01 00:00:00"; "Flow 12.5 l/s"; "Vel: 0.35 m/s"]%string
                   Flow.empty_record Flow.new_world)))))
    by (vm_compute; left; reflexivity).
  split; [exact H|].
  exact (X13_emitted_rows_are_complete _ _ _ _ _ H).
Defined.

(** X14: a timestamp line and a flow line, in either order, followed by a
    velocity line, with readings other than 0.0, make exactly one row: the
    clock reading with the flow and the velocity of the lines, whatever the
    accumulator held before and whatever the table answers; the accumulator
    is empty afterwards. *)
Theorem X14_velocity_line_completes_the_record
  (utc_now : nat -> string) (supabase : Flow.row -> Flow.response)
  (ts fl vl iso : string) (f v : float) (cur : Flow.record) (w : Flow.world) :
  Flow.classify ts = Flow.Ok (Flow.Timestamp iso) ->
  Flow.classify fl = Flow.Ok (Flow.FlowValue f) ->
  Flow.classify vl = Flow.Ok (Flow.Velocity v) ->
  Py.float_truthy f = true -> Py.float_truthy v = true ->
  forall p, p = [ts; fl; vl] \/ p = [fl; ts; vl] ->
  fst (Flow.process_lines utc_now supabase p cur w) = (None, [], Flow.empty_record)
  /\ Flow.rows (Flow.trace (snd (Flow.process_lines utc_now supabase p cur w)))
     = (Flow.rows (Flow.trace w)
        ++ [{| Flow.row_timestamp := utc_now (Flow.reads w);
               Flow.row_flow := Some f; Flow.row_velocity := Some v |}])%list
  /\ Flow.reads (snd (Flow.process_lines utc_now supabase p cur w)) = S (Flow.reads w).
Proof.
  intros Hts Hfl Hvl Hf Hv p [-> | ->].
  - rewrite (process_lines_timestamp _ _ _ _ _ _ _ Hts),
      (process_lines_flow _ _ _ _ _ _ _ Hfl),
      (process_lines_velocity _ _ _ _ _ _ _ Hvl).
    cbv zeta. cbn [Flow.timestamp Flow.flow Flow.velocity].
    unfold Flow.all_values. cbn [Flow.timestamp Flow.flow Flow.velocity Flow.num_truthy].
    rewrite (classify_timestamp_truthy _ _ Hts), Hf, Hv. cbn [andb Flow.process_lines fst snd].
    split; [reflexivity|]. split; [now rewrite store_record_rows|reflexivity].
  - rewrite (process_lines_flow _ _ _ _ _ _ _ Hfl),
      (process_lines_timestamp _ _ _ _ _ _ _ Hts),
      (process_lines_velocity _ _ _ _ _ _ _ Hvl).
    cbv zeta. cbn [Flow.timestamp Flow.flow Flow.velocity].
    unfold Flow.all_values. cbn [Flow.timestamp Flow.flow Flow.velocity Flow.num_truthy].
    rewrite (classify_timestamp_truthy _ _ Hts), Hf, Hv. cbn [andb Flow.process_lines fst snd].
    split; [reflexivity|]. split; [now rewrite store_record_rows|reflexivity].
Qed.

(** X14 on concrete lines, with a table that raises. *)
Lemma X14_velocity_line_completes_the_record_witness :
  let ts := "25-01-01 00:00:00"%string in
  let fl := "Flow 12.5 l/s"%string in
  let vl := "Vel: 0.35 m/s"%string in
  Flow.classify ts = Flow.Ok (Flow.Timestamp "2025-01-01T00:00:00+07:00")
  /\ Flow.classify fl = Flow.Ok (Flow.FlowValue 12.5)
  /\ Flow.classify vl = Flow.Ok (Flow.Velocity 0.35)
  /\ Py.float_truthy 12.5 = true /\ Py.float_truthy 0.35 = true
  /\ fst (Flow.process_lines (fun _ => "now"%string) (fun _ => Flow.Failure "down")
            [ts; fl; vl] Flow.empty_record Flow.new_world)
     = (None, [], Flow.empty_record).
Proof.
  cbv zeta.
  assert (Hts : Flow.classify "25-01-01 00:00:00"
                = Flow.Ok (Flow.Timestamp "2025-01-01T00:00:00+07:00"))
    by (vm_compute; reflexivity).
  assert (Hfl : Flow.classify "Flow 12.5 l/s" = Flow.Ok (Flow.FlowValue 12.5))
    by (vm_compute; reflexivity).
  assert (Hvl : Flow.classify "Vel: 0.35 m/s" = Flow.Ok (Flow.Velocity 0.35))
    by (vm_compute; reflexivity).
  assert (Hf : Py.float_truthy 12.5 = true) by reflexivity.
  assert (Hv : Py.float_truthy 0.35 = true) by reflexivity.
  split; [exact Hts|]. split; [exact Hfl|]. split; [exact Hvl|].
  split; [exact Hf|]. split; [exact Hv|].
  exact (proj1 (X14_velocity_line_completes_the_record
                  (fun _ => "now"%string) (fun _ => Flow.Failure "down")
                  _ _ _ _ _ _ Flow.empty_record Flow.new_world
                  Hts Hfl Hvl Hf Hv _ (or_introl eq_refl))).
Defined.

(** X15: [connect_serial] opens the port at most three times and succeeds
    exactly when one of the three attempts does; it waits 5 seconds after a
    failed first and a failed second attempt and not after the third; a
    first attempt that succeeds prints only the connection line; a failure
    has waited 10 seconds and reports the exception of the third attempt. *)
Theorem X15_connect_serial_retries (open_port : nat -> option string) :
  (fst (Flow.connect_serial open_port) = true
   <-> open_port 0 = None \/ open_port 1 = None \/ open_port 2 = None)
  /\ Flow.slept (snd (Flow.connect_serial open_port)) <= 10
  /\ (open_port 0 = None -> Flow.connect_serial open_port = (true, [Flow.Connected]))
  /\ (fst (Flow.connect_serial open_port) = false ->
      exists e, open_port 2 = Some e
                /\ Flow.connect_serial open_port
                   = (false, [Flow.AttemptFailed 1; Flow.Slept 5;
                              Flow.AttemptFailed 2; Flow.Slept 5;
                              Flow.ConnectFailed 3 e])
                /\ Flow.slept (snd (Flow.connect_serial open_port)) = 10).
Proof.
  unfold Flow.connect_serial, Flow.max_retries, Flow.retry_delay.
  cbn [seq Flow.connect_from].
  unfold Flow.max_retries, Flow.retry_delay.
  destruct (open_port 0) as [e0|]; cbn.
  2:{ repeat split; auto; try lia; discriminate. }
  destruct (open_port 1) as [e1|]; cbn.
  2:{ repeat split; auto; try lia; discriminate. }
  destruct (open_port 2) as [e2|]; cbn.
  - repeat split; try lia; try discriminate.
    + intros [H|[H|H]]; discriminate H.
    + intros _. exists e2. auto.
  - repeat split; auto; try lia; discriminate.
Qed.

(** X15 with a port that opens at the first attempt. *)
Lemma X15_connect_serial_retries_witness :
  (fun _ : nat => @None string) 0 = None
  /\ Flow.connect_serial (fun _ => None) = (true, [Flow.Connected]).
Proof.
  split; [reflexivity|].
  now apply (proj1 (proj2 (proj2 (X15_connect_serial_retries (fun _ => None))))).
Defined.

(** * White space around a line, text after it *)

Section Stripping.

Lemma list_ascii_of_string_app (a b : string) :
  list_ascii_of_string (a ++ b) = (list_ascii_of_string a ++ list_ascii_of_string b)%list.
Proof. induction a as [|c a IH]; cbn; [reflexivity|now rewrite IH]. Qed.

Lemma lstrip_spaces (a t : Flow.text) : Forall (fun c => Flow.is_space c = true) a -> Flow.lstrip (a ++ t) = Flow.lstrip t.
Proof.
  induction 1 as [|c a Hc Ha IH]; [reflexivity|]. cbn [app Flow.lstrip]. now rewrite Hc.
Qed.

Lemma lstrip_nil (s : Flow.text) : Flow.lstrip s = [] <-> Forall (fun c => Flow.is_space c = true) s.
Proof.
  induction s as [|c s IH]; cbn [Flow.lstrip].
  - split; [constructor|reflexivity].
  - destruct (Flow.is_space c) eqn:E.
    + rewrite IH. split; [now constructor|now inversion 1].
    + split; [discriminate|]. inversion 1. congruence.
Qed.

Lemma lstrip_app (s b : Flow.text) :
  Flow.lstrip s <> [] -> Flow.lstrip (s ++ b) = (Flow.lstrip s ++ b)%list.
Proof.
  induction s as [|c s IH]; cbn [app Flow.lstrip]; [congruence|].
  destruct (Flow.is_space c); [exact IH|reflexivity].
Qed.

Lemma lstrip_suffix (s : Flow.text) : exists t, s = (t ++ Flow.lstrip s)%list.
Proof.
  induction s as [|c s [t IH]]; [now exists []|]. cbn [Flow.lstrip].
  destruct (Flow.is_space c); [|now exists []].
  exists (c :: t). cbn [app]. now f_equal.
Qed.

Lemma rstrip_spaces (t b : Flow.text) : Forall (fun c => Flow.is_space c = true) b -> Flow.rstrip (t ++ b) = Flow.rstrip t.
Proof.
  intros Hb. unfold Flow.rstrip. rewrite rev_app_distr, lstrip_spaces; [reflexivity|].
  now apply Forall_rev.
Qed.

Lemma rstrip_prefix (s : Flow.text) : exists t, s = (Flow.rstrip s ++ t)%list.
Proof.
  unfold Flow.rstrip. destruct (lstrip_suffix (rev s)) as [t Ht].
  exists (rev t). rewrite <- rev_app_distr, <- Ht. now rewrite rev_involutive.
Qed.

Lemma strip_padded (a s b : Flow.text) :
  Forall (fun c => Flow.is_space c = true) a -> Forall (fun c => Flow.is_space c = true) b -> Flow.strip (a ++ s ++ b) = Flow.strip s.
Proof.
  intros Ha Hb. unfold Flow.strip. rewrite lstrip_spaces by exact Ha.
  destruct (Flow.lstrip s) as [|c r] eqn:E.
  - assert (H : Flow.lstrip (s ++ b) = []).
    { apply lstrip_nil, Forall_app. split; [now apply lstrip_nil|exact Hb]. }
    now rewrite H.
  - rewrite lstrip_app by congruence. rewrite E. now apply rstrip_spaces.
Qed.

(** Text added after a line that does not strip to nothing only adds to what
    [strip] returns. *)
Lemma strip_extend (l x : Flow.text) :
  Flow.strip l <> [] -> exists z, Flow.strip (l ++ x) = (Flow.strip l ++ z)%list.
Proof.
  unfold Flow.strip. intros Hne.
  assert (Hl : Flow.lstrip l <> []).
  { intros H. apply Hne. rewrite H. reflexivity. }
  rewrite lstrip_app by exact Hl. set (u := Flow.lstrip l) in *.
  destruct (Flow.lstrip (rev x)) as [|c r] eqn:Ex.
  - exists []. rewrite app_nil_r. apply rstrip_spaces.
    apply lstrip_nil in Ex. apply Forall_rev in Ex. now rewrite rev_involutive in Ex.
  - destruct (rstrip_prefix u) as [t Ht].
    exists (t ++ Flow.rstrip x)%list.
    unfold Flow.rstrip at 1. rewrite rev_app_distr, lstrip_app by congruence.
    rewrite rev_app_distr, rev_involutive. fold (Flow.rstrip x).
    rewrite app_assoc. now rewrite <- Ht.
Qed.

Lemma fixed_extend (pat : list Flow.atom) (s z g : Flow.text) :
  Flow.fixed pat s = Some g -> Flow.fixed pat (s ++ z) = Some g.
Proof.
  revert s g. induction pat as [|a pat IH]; intros s g; cbn [Flow.fixed]; [auto|].
  destruct s as [|c s]; [discriminate|]. cbn [app].
  destruct (match a with Flow.D => Flow.is_digit c | Flow.L l => (l =? c)%char end);
    [|discriminate].
  destruct (Flow.fixed pat s) as [g'|] eqn:E; [|discriminate].
  now rewrite (IH s g' E).
Qed.

Lemma numeric_match_extend (head tail : string) (s z num : Flow.text)
      (t0 : ascii) (trest : Flow.text) :
  list_ascii_of_string tail = t0 :: trest -> Flow.is_space t0 = false ->
  Flow.numeric_match head tail s = Some num ->
  Flow.numeric_match head tail (s ++ z) = Some num.
Proof.
  intros Ht Hs H.
  apply (numeric_match_spec head tail s num t0 trest Ht Hs) in H
    as (ws1 & ws2 & rest & -> & H1 & Hn & H2 & F1 & Fn & F2).
  apply (numeric_match_spec head tail _ num t0 trest Ht Hs).
  exists ws1, ws2, (rest ++ z)%list. repeat split; try assumption.
  now rewrite <- !app_assoc.
Qed.

Lemma numeric_match_head (head tail : string) (s num : Flow.text) :
  Flow.numeric_match head tail s = Some num ->
  exists r, s = (list_ascii_of_string head ++ r)%list.
Proof.
  unfold Flow.numeric_match.
  destruct (Flow.literal _ s) as [r|] eqn:E; [|discriminate].
  intros _. exists r. now apply literal_spec.
Qed.

(** A line one of the three patterns recognises is classified the same
    with any text after it. *)
Lemma classify_extend (line extra : string) :
  Flow.classify line <> Flow.Ok Flow.Other ->
  Flow.classify (line ++ extra) = Flow.classify line.
Proof.
  intros Hrec. unfold Flow.classify in *. rewrite list_ascii_of_string_app.
  set (l := list_ascii_of_string line) in *.
  destruct (Flow.strip l) as [|c0 s0] eqn:Es; [now elim Hrec|].
  destruct (strip_extend l (list_ascii_of_string extra)) as [z Hz]; [congruence|].
  rewrite Hz, Es. rewrite <- Es in *. clear Hz.
  destruct (Flow.timestamp_match (Flow.strip l)) as [g|] eqn:Et.
  { unfold Flow.timestamp_match in *. now rewrite (fixed_extend _ _ z _ Et). }
  destruct (Flow.flow_match (Flow.strip l)) as [num|] eqn:Ef.
  { destruct (numeric_match_head _ _ _ _ Ef) as [r Hr].
    unfold Flow.flow_match in *.
    rewrite (numeric_match_extend "Flow" "l/s" _ z num "l" (list_ascii_of_string "/s")
               eq_refl eq_refl Ef).
    rewrite Hr. reflexivity. }
  destruct (Flow.vel_match (Flow.strip l)) as [num|] eqn:Ev; [|now elim Hrec].
  destruct (numeric_match_head _ _ _ _ Ev) as [r Hr].
  unfold Flow.vel_match in *.
  rewrite (numeric_match_extend "Vel:" "m/s" _ z num "m" (list_ascii_of_string "/s")
             eq_refl eq_refl Ev).
  rewrite Hr. reflexivity.
Qed.

End Stripping.

(** X16: [parse_data_line] does not see the white space around a line:
    with any white space in front and behind (the line ending of the serial
    port, say) it returns what it returns on the line itself. *)
Theorem X16_surrounding_white_space_is_ignored
  (pre line post : string) (cur : Flow.record) :
  Forall (fun c => Flow.is_space c = true) (list_ascii_of_string pre) ->
  Forall (fun c => Flow.is_space c = true) (list_ascii_of_string post) ->
  Flow.parse_data_line (pre ++ line ++ post) cur = Flow.parse_data_line line cur.
Proof.
  intros Hpre Hpost. unfold Flow.parse_data_line.
  rewrite !list_ascii_of_string_app. now rewrite strip_padded.
Qed.

(** X16 on a flow line between two blanks and a tab. *)
Lemma X16_surrounding_white_space_is_ignored_witness :
  let tab := String (ascii_of_nat 9) EmptyString in
  Forall (fun c => Flow.is_space c = true) (list_ascii_of_string "  ")
  /\ Forall (fun c => Flow.is_space c = true) (list_ascii_of_string tab)
  /\ Flow.parse_data_line ("  " ++ "Flow 12.5 l/s" ++ tab) Flow.empty_record
     = Flow.parse_data_line "Flow 12.5 l/s" Flow.empty_record.
Proof.
  cbv zeta.
  assert (H1 : Forall (fun c => Flow.is_space c = true) (list_ascii_of_string "  "))
    by (repeat constructor).
  assert (H2 : Forall (fun c => Flow.is_space c = true)
                 (list_ascii_of_string (String (ascii_of_nat 9) EmptyString)))
    by (repeat constructor).
  split; [exact H1|]. split; [exact H2|].
  exact (X16_surrounding_white_space_is_ignored _ _ _ _ H1 H2).
Defined.

(** X17: the patterns are matched at the start of the line only: a line
    that one of the three patterns recognises is parsed the same, value or
    exception, whatever text follows it. *)
Theorem X17_text_after_a_match_is_ignored
  (line extra : string) (cur : Flow.record) :
  Flow.classify line <> Flow.Ok Flow.Other ->
  Flow.parse_data_line (line ++ extra) cur = Flow.parse_data_line line cur.
Proof.
  intros H. rewrite !parse_data_line_classify. now rewrite classify_extend.
Qed.

(** X17 on a velocity line followed by other text. *)
Lemma X17_text_after_a_match_is_ignored_witness :
  Flow.classify "Vel: 0.35 m/s" <> Flow.Ok Flow.Other
  /\ Flow.parse_data_line ("Vel: 0.35 m/s" ++ "Flow 1 l/s") Flow.empty_record
     = Flow.parse_data_line "Vel: 0.35 m/s" Flow.empty_record.
Proof.
  assert (H : Flow.classify "Vel: 0.35 m/s" <> Flow.Ok Flow.Other)
    by (vm_compute; discriminate).
  split; [exact H|].
  exact (X17_text_after_a_match_is_ignored _ _ _ H).
Defined.

(** * The timestamp line *)

Section Timestamps.

Lemma fixed_shape (pat : list Flow.atom) :
  forall s g, Flow.fixed pat s = Some g ->
    Forall2 (fun a c => match a with
                        | Flow.D => Flow.is_digit c = true
                        | Flow.L l => c = l
                        end) pat g
    /\ exists rest, s = (g ++ rest)%list.
Proof.
  induction pat as [|a pat IH]; intros s g; cbn [Flow.fixed].
  - intros [= <-]. split; [constructor|now exists s].
  - destruct s as [|c s]; [discriminate|].
    destruct (match a with Flow.D => Flow.is_digit c | Flow.L l => (l =? c)%char end) eqn:Ea;
      [|discriminate].
    destruct (Flow.fixed pat s) as [g'|] eqn:E; [|discriminate].
    intros [= <-]. destruct (IH s g' E) as [HF [rest ->]].
    split; [|now exists rest].
    constructor; [|exact HF].
    destruct a as [|l]; [exact Ea|]. symmetry. now apply Ascii.eqb_eq.
Qed.

Lemma digit_cases (c : ascii) :
  Flow.is_digit c = true -> In c (list_ascii_of_string "0123456789").
Proof.
  destruct c as [[] [] [] [] [] [] [] []]; intros H; try discriminate H;
    cbn; repeat (first [left; reflexivity | right]).
Qed.

Lemma pad2_two (a b : ascii) :
  Flow.is_digit a = true -> Flow.is_digit b = true ->
  Flow.two a b < 100
  /\ Flow.pad2 (Flow.two a b) = String a (String b EmptyString)
  /\ Flow.pad4 (2000 + Flow.two a b) = String "2" (String "0" (String a (String b EmptyString)))
  /\ Flow.pad4 (1900 + Flow.two a b) = String "1" (String "9" (String a (String b EmptyString))).
Proof.
  intros Ha Hb. apply digit_cases in Ha, Hb. cbn [list_ascii_of_string In] in Ha, Hb.
  repeat match goal with H : _ \/ _ |- _ => destruct H as [H|H] end;
    try contradiction; subst a b;
    (split; [vm_compute; lia|repeat split; vm_compute; reflexivity]).
Qed.

Lemma strptime_fields (a1 a2 s1 b1 b2 s2 c1 c2 s3 d1 d2 s4 e1 e2 s5 f1 f2 : ascii)
      (dt : Flow.datetime) :
  Flow.strptime [a1; a2; s1; b1; b2; s2; c1; c2; s3; d1; d2; s4; e1; e2; s5; f1; f2]
  = Flow.Ok dt ->
  let y := if Flow.two a1 a2 <=? 68 then 2000 + Flow.two a1 a2 else 1900 + Flow.two a1 a2 in
  dt = {| Flow.year := y; Flow.month := Flow.two b1 b2; Flow.day := Flow.two c1 c2;
          Flow.hour := Flow.two d1 d2; Flow.minute := Flow.two e1 e2;
          Flow.second := Flow.two f1 f2 |}
  /\ 1 <= Flow.two b1 b2 <= 12
  /\ 1 <= Flow.two c1 c2 <= Flow.days_in_month y (Flow.two b1 b2)
  /\ Flow.two d1 d2 <= 23 /\ Flow.two e1 e2 <= 59 /\ Flow.two f1 f2 <= 59.
Proof.
  intros Hs. cbv zeta. unfold Flow.strptime in Hs.
  match type of Hs with
  | (if ?c then _ else _) = _ => destruct c eqn:Ec; [|discriminate Hs]
  end.
  match type of Hs with
  | (if ?c then _ else _) = _ => destruct c eqn:Ed; [discriminate Hs|]
  end.
  match type of Hs with
  | (if ?c then _ else _) = _ => destruct c eqn:Ese; [discriminate Hs|]
  end.
  split; [injection Hs as Hs; symmetry; exact Hs|].
  repeat (apply andb_true_iff in Ec as [Ec ?]).
  apply negb_false_iff in Ed, Ese.
  repeat match goal with
         | H : (_ <=? _) = true |- _ => apply Nat.leb_le in H
         end.
  lia.
Qed.

End Timestamps.

(** X18: on the 17 characters the timestamp pattern captures, a successful
    [strptime] gives a year from 1969 to 2068, a month from 1 to 12, a day
    the month has, an hour below 24, a minute and a second below 60; and the
    string stored in the accumulator is the captured text itself with the
    century in front (20 for the years 00-68, 19 for 69-99), a T for the
    blank and +07:00 at the end. *)
Theorem X18_timestamp_is_rewritten_as_iso
  (line g : Flow.text) (dt : Flow.datetime) :
  Flow.timestamp_match line = Some g ->
  Flow.strptime g = Flow.Ok dt ->
  (1969 <= Flow.year dt <= 2068
   /\ 1 <= Flow.month dt <= 12
   /\ 1 <= Flow.day dt <= Flow.days_in_month (Flow.year dt) (Flow.month dt)
   /\ Flow.hour dt <= 23 /\ Flow.minute dt <= 59 /\ Flow.second dt <= 59)
  /\ list_ascii_of_string (Flow.localized_isoformat dt)
     = (list_ascii_of_string
          (if Flow.two (nth 0 g "0"%char) (nth 1 g "0"%char) <=? 68 then "20" else "19")
        ++ firstn 8 g ++ ["T"%char] ++ skipn 9 g
        ++ list_ascii_of_string "+07:00")%list.
Proof.
  unfold Flow.timestamp_match. intros Hm Hs.
  destruct (fixed_shape _ _ _ Hm) as [HF _]. clear Hm.
  repeat match goal with
         | H : Forall2 _ (_ :: _) _ |- _ => inversion H; subst; clear H
         | H : Forall2 _ [] _ |- _ => inversion H; subst; clear H
         end.
  match type of Hs with
  | Flow.strptime [?a1; ?a2; _; ?b1; ?b2; _; ?c1; ?c2; _;
                   ?d1; ?d2; _; ?e1; ?e2; _; ?f1; ?f2] = _ =>
      pose proof (pad2_two a1 a2 ltac:(assumption) ltac:(assumption)) as (Hy & _ & Hy20 & Hy19);
      pose proof (pad2_two b1 b2 ltac:(assumption) ltac:(assumption)) as (_ & Hm2 & _);
      pose proof (pad2_two c1 c2 ltac:(assumption) ltac:(assumption)) as (_ & Hd2 & _);
      pose proof (pad2_two d1 d2 ltac:(assumption) ltac:(assumption)) as (_ & HH2 & _);
      pose proof (pad2_two e1 e2 ltac:(assumption) ltac:(assumption)) as (_ & HM2 & _);
      pose proof (pad2_two f1 f2 ltac:(assumption) ltac:(assumption)) as (_ & HS2 & _)
  end.
  destruct (strptime_fields _ _ _ _ _ _ _ _ _ _ _ _ _ _ _ _ _ _ Hs)
    as (-> & Hmonth & Hday & Hhour & Hminute & Hsecond).
  cbv [Flow.year Flow.month Flow.day Flow.hour Flow.minute Flow.second
       nth firstn skipn Flow.localized_isoformat].
  rewrite Hm2, Hd2, HH2, HM2, HS2.
  revert Hday.
  destruct (Flow.two y y0 <=? 68) eqn:Ey; intros Hday;
    [apply Nat.leb_le in Ey; rewrite Hy20|apply Nat.leb_gt in Ey; rewrite Hy19];
    (split; [lia|reflexivity]).
Qed.

(** X18 on the line "24-02-29 10:00:59": the last day of February in a leap
    year. *)
Lemma X18_timestamp_is_rewritten_as_iso_witness :
  let g := list_ascii_of_string "24-02-29 10:00:59" in
  let dt := {| Flow.year := 2024; Flow.month := 2; Flow.day := 29;
               Flow.hour := 10; Flow.minute := 0; Flow.second := 59 |} in
  Flow.timestamp_match (list_ascii_of_string "24-02-29 10:00:59 UTC") = Some g
  /\ Flow.strptime g = Flow.Ok dt
  /\ Flow.localized_isoformat dt = "2024-02-29T10:00:59+07:00"%string.
Proof.
  cbv zeta.
  assert (Hm : Flow.timestamp_match (list_ascii_of_string "24-02-29 10:00:59 UTC")
               = Some (list_ascii_of_string "24-02-29 10:00:59")) by reflexivity.
  assert (Hs : Flow.strptime (list_ascii_of_string "24-02-29 10:00:59")
               = Flow.Ok {| Flow.year := 2024; Flow.month := 2; Flow.day := 29;
                            Flow.hour := 10; Flow.minute := 0; Flow.second := 59 |})
    by reflexivity.
  split; [exact Hm|]. split; [exact Hs|].
  pose proof (proj2 (X18_timestamp_is_rewritten_as_iso _ _ _ Hm Hs)) as H.
  rewrite <- (string_of_list_ascii_of_string (Flow.localized_isoformat _)), H.
  reflexivity.
Defined.

(** * The number of a flow or velocity line *)

Section Numbers.

Lemma span_stop (p : ascii -> bool) (s : Flow.text) :
  match snd (Flow.span p s) with
  | [] => True
  | c :: _ => p c = false
  end.
Proof.
  induction s as [|c s IH]; cbn [Flow.span]; [exact I|].
  destruct (p c) eqn:E; [|exact E].
  now destruct (Flow.span p s).
Qed.

Lemma numeric_not_digit (c : ascii) :
  Flow.is_numeric c = true -> Flow.is_digit c = false -> c = "."%char.
Proof.
  unfold Flow.is_numeric. intros H Hd. rewrite Hd in H. now apply Ascii.eqb_eq.
Qed.

Lemma point_not_digit : Flow.is_digit "." = false.
Proof. reflexivity. Qed.

Lemma count_points_digits (a : Flow.text) :
  Forall (fun c => Flow.is_digit c = true) a -> count_occ ascii_dec a "."%char = 0.
Proof.
  induction 1 as [|c a Hc Ha IH]; [reflexivity|].
  rewrite count_occ_cons_neq; [exact IH|].
  intros ->. rewrite point_not_digit in Hc. discriminate.
Qed.

Lemma has_digit_nonempty (a : Flow.text) :
  Forall (fun c => Flow.is_digit c = true) a ->
  (a <> [] <-> exists c, In c a /\ Flow.is_digit c = true).
Proof.
  intros Ha. split.
  - destruct a as [|c a]; [congruence|]. intros _. exists c. split; [now left|].
    now inversion Ha.
  - intros (c & Hc & _) ->. contradiction.
Qed.

(** [float] accepts a text of digits and points exactly when it has at least
    one digit and at most one point. *)
Lemma float_of_text_accepts (t : Flow.text) :
  Forall (fun c => Flow.is_numeric c = true) t ->
  ((exists x, Flow.float_of_text t = Flow.Ok x)
   <-> count_occ ascii_dec t "."%char <= 1
       /\ exists c, In c t /\ Flow.is_digit c = true).
Proof.
  intros Hnum. unfold Flow.float_of_text.
  destruct (span_spec Flow.is_digit t) as [Ht Ha].
  pose proof (span_stop Flow.is_digit t) as Hstop.
  destruct (Flow.span Flow.is_digit t) as [a r]. cbn [fst snd] in *.
  destruct r as [|c frac].
  - (* digits only *)
    rewrite app_nil_r in Ht. subst t.
    rewrite (count_points_digits a Ha), <- (has_digit_nonempty a Ha).
    destruct a as [|d a]; split.
    + intros [x H]; discriminate H.
    + intros [_ H]. congruence.
    + intros _. split; [lia|discriminate].
    + intros _. eauto.
  - assert (Hc : c = "."%char).
    { apply numeric_not_digit; [|exact Hstop].
      rewrite Ht in Hnum. apply Forall_app in Hnum as [_ Hnum]. now inversion Hnum. }
    subst c. cbn [Ascii.eqb Bool.eqb].
    destruct (span_spec Flow.is_digit frac) as [Hf Hb].
    pose proof (span_stop Flow.is_digit frac) as Hstop'.
    destruct (Flow.span Flow.is_digit frac) as [b r']. cbn [fst snd] in *.
    destruct r' as [|c' r''].
    + (* digits, a point, digits *)
      rewrite app_nil_r in Hf. subst frac t.
      assert (Hcount : count_occ ascii_dec (a ++ "."%char :: b) "."%char = 1).
      { rewrite count_occ_app, (count_points_digits a Ha), count_occ_cons_eq by reflexivity.
        now rewrite (count_points_digits b Hb). }
      assert (Hab : Forall (fun c => Flow.is_digit c = true) (a ++ b))
        by (apply Forall_app; now split).
      assert (Hdig : (exists c, In c (a ++ "."%char :: b) /\ Flow.is_digit c = true)
                     <-> a ++ b <> []).
      { rewrite (has_digit_nonempty (a ++ b) Hab). split.
        - intros (c & Hc & Hd). exists c. split; [|exact Hd].
          apply in_app_or in Hc as [Hc|[<-|Hc]]; apply in_or_app; auto.
          rewrite point_not_digit in Hd. discriminate.
        - intros (c & Hc & Hd). exists c. split; [|exact Hd].
          apply in_app_or in Hc as [Hc|Hc]; apply in_or_app; [now left|right; now right]. }
      rewrite Hcount, Hdig.
      destruct (a ++ b)%list as [|d ab]; split.
      * intros [x H]; discriminate H.
      * intros [_ H]. congruence.
      * intros _. split; [lia|discriminate].
      * intros _. eauto.
    + (* a second point *)
      assert (Hc' : c' = "."%char).
      { apply numeric_not_digit; [|exact Hstop'].
        rewrite Ht, Hf in Hnum. apply Forall_app in Hnum as [_ Hnum].
        inversion Hnum as [|? ? _ Hnum']. apply Forall_app in Hnum' as [_ Hnum'].
        now inversion Hnum'. }
      subst c' frac t. split.
      * intros [x H]. destruct (a ++ b)%list; discriminate H.
      * intros [Hcount _]. exfalso.
        rewrite count_occ_app, count_occ_cons_eq in Hcount by reflexivity.
        rewrite count_occ_app, count_occ_cons_eq in Hcount by reflexivity. lia.
Qed.

Lemma numeric_match_captures (head tail : string) (line num : Flow.text) :
  Flow.numeric_match head tail line = Some num ->
  num <> [] /\ Forall (fun c => Flow.is_numeric c = true) num.
Proof.
  unfold Flow.numeric_match.
  destruct (Flow.literal _ line) as [r1|]; [|discriminate].
  destruct (Flow.span Flow.is_space r1) as [[|w1 ws1] r2]; [discriminate|].
  destruct (span_spec Flow.is_numeric r2) as [_ F2].
  destruct (Flow.span Flow.is_numeric r2) as [[|n1 n] r3]; [discriminate|].
  destruct (Flow.span Flow.is_space r3) as [[|w2 ws2] r4]; [discriminate|].
  destruct (Flow.literal _ r4); [|discriminate].
  intros [= <-]. split; [discriminate|exact F2].
Qed.

End Numbers.

(** X19: what the flow and velocity patterns capture is a non-empty run of
    digits and points, and [parse_data_line] raises on a line that matches
    the flow pattern exactly when that run has no digit or more than one
    point; otherwise it stores a flow and returns False, leaving the other
    two fields as they were. *)
Theorem X19_flow_line_raises_on_bad_number
  (line : string) (num : Flow.text) (cur : Flow.record) :
  Flow.timestamp_match (Flow.strip (list_ascii_of_string line)) = None ->
  Flow.flow_match (Flow.strip (list_ascii_of_string line)) = Some num ->
  let well_formed :=
    count_occ ascii_dec num "."%char <= 1
    /\ exists c, In c num /\ Flow.is_digit c = true in
  (num <> [] /\ Forall (fun c => Flow.is_numeric c = true) num)
  /\ ((exists e, Flow.parse_data_line line cur = Flow.Raise e) <-> ~ well_formed)
  /\ (well_formed ->
      exists f, Flow.parse_data_line line cur
                = Flow.Ok (false, {| Flow.timestamp := Flow.timestamp cur;
                                     Flow.flow := Some f;
                                     Flow.velocity := Flow.velocity cur |})).
Proof.
  intros Ht Hf. cbv zeta.
  destruct (numeric_match_captures _ _ _ _ Hf) as [Hne Hnum].
  split; [now split|].
  pose proof (float_of_text_accepts num Hnum) as Hacc.
  unfold Flow.parse_data_line. rewrite Ht, Hf.
  destruct (Flow.float_of_text num) as [x|e]; cbn [Flow.bind].
  - assert (Hwf : count_occ ascii_dec num "."%char <= 1
                  /\ exists c, In c num /\ Flow.is_digit c = true)
      by (apply Hacc; eauto).
    split.
    + split; [intros [e H]; discriminate H|]. intros H. now elim H.
    + intros _. now exists x.
  - assert (Hwf : ~ (count_occ ascii_dec num "."%char <= 1
                     /\ exists c, In c num /\ Flow.is_digit c = true)).
    { intros H. apply Hacc in H as [x H]. discriminate H. }
    split.
    + split; [intros _; exact Hwf|]. intros _. now exists e.
    + intros H. now elim Hwf.
Qed.

(** X19 on "Flow 1.2.3 l/s": two points. *)
Lemma X19_flow_line_raises_on_bad_number_witness :
  let line := "Flow 1.2.3 l/s"%string in
  let num := list_ascii_of_string "1.2.3" in
  Flow.timestamp_match (Flow.strip (list_ascii_of_string line)) = None
  /\ Flow.flow_match (Flow.strip (list_ascii_of_string line)) = Some num
  /\ ~ (count_occ ascii_dec num "."%char <= 1
        /\ exists c, In c num /\ Flow.is_digit c = true)
  /\ exists e, Flow.parse_data_line line Flow.empty_record = Flow.Raise e.
Proof.
  cbv zeta.
  assert (Ht : Flow.timestamp_match (Flow.strip (list_ascii_of_string "Flow 1.2.3 l/s")) = None)
    by reflexivity.
  assert (Hf : Flow.flow_match (Flow.strip (list_ascii_of_string "Flow 1.2.3 l/s"))
               = Some (list_ascii_of_string "1.2.3")) by reflexivity.
  assert (Hbad : ~ (count_occ ascii_dec (list_ascii_of_string "1.2.3") "."%char <= 1
                    /\ exists c, In c (list_ascii_of_string "1.2.3") /\ Flow.is_digit c = true)).
  { intros [H _]. vm_compute in H. lia. }
  split; [exact Ht|]. split; [exact Hf|]. split; [exact Hbad|].
  apply (proj1 (proj2 (X19_flow_line_raises_on_bad_number _ _ Flow.empty_record Ht Hf))).
  exact Hbad.
Defined.

(** * Frames across reads, magnitudes, zero readings *)

Section AcrossReads.

Variable supabase : Temp.row -> Temp.response.

Lemma split_frame_is_printed (now : string) (before a b : list byte) (st : Temp.loop_state) :
  Temp.buffer st = (before ++ a)%list -> b <> [] ->
  length (a ++ b) = 8 -> Temp.item (a ++ b) 0 = 2%Z ->
  In (Temp.Decoded (Temp.decode_t1 (a ++ b)) (Temp.decode_t2 (a ++ b)) (a ++ b))
     (snd (fst (Temp.cycle supabase now b st))).
Proof.
  intros Hbuf Hb Hlen Hstart. destruct b as [|c b]; [congruence|].
  destruct (cycle_output supabase now c b st) as (post & -> & _).
  do 3 right. apply in_or_app. left.
  apply print_windows_decoded; [|now apply Z.eqb_eq].
  rewrite Hbuf, <- app_assoc. unfold Temp.windows. apply in_map_iff.
  exists (length before). split.
  - unfold Temp.slice8. rewrite skipn_app, skipn_all, Nat.sub_diag.
    change (skipn 0 (a ++ c :: b)) with (a ++ c :: b)%list. rewrite app_nil_l.
    apply firstn_all2. lia.
  - unfold Temp.scan_range. apply in_seq. rewrite length_app. lia.
Qed.

End AcrossReads.

(** X20: a frame that arrives in two reads is not lost: when a read of at
    most 32 bytes ends with the first part of an 8-byte sequence that starts
    with 0x02 and the next read brings the rest, the second cycle decodes and
    prints that sequence. *)
Theorem X20_frame_split_across_reads_is_decoded
  (supabase : Temp.row -> Temp.response) (now1 now2 : string)
  (head a b : list byte) (st : Temp.loop_state) :
  a <> [] -> b <> [] -> length (head ++ a) <= 32 ->
  length (a ++ b) = 8 -> Temp.item (a ++ b) 0 = 2%Z ->
  let st1 := fst (fst (Temp.cycle supabase now1 (head ++ a) st)) in
  In (Temp.Decoded (Temp.decode_t1 (a ++ b)) (Temp.decode_t2 (a ++ b)) (a ++ b))
     (snd (fst (Temp.cycle supabase now2 b st1))).
Proof.
  intros Ha Hb Hchunk Hlen Hstart. cbv zeta.
  assert (Hne : (head ++ a)%list <> []) by (destruct head, a; cbn; congruence).
  assert (Hbuf : Temp.buffer (fst (fst (Temp.cycle supabase now1 (head ++ a) st)))
                 = Temp.trim (Temp.buffer st ++ head ++ a)).
  { destruct (cycle_state supabase now1 (head ++ a) st) as (_ & H & _).
    destruct (head ++ a)%list; [congruence|exact H]. }
  destruct (trim_suffix (Temp.buffer st ++ head ++ a)) as (dropped & Hd & Hl).
  destruct (app_suffix dropped (Temp.buffer st) (Temp.trim (Temp.buffer st ++ head ++ a))
              (head ++ a)) as [x Hx].
  - now symmetry.
  - rewrite Hl. rewrite !length_app in *. lia.
  - apply (split_frame_is_printed supabase now2 (x ++ head) a b); try assumption.
    rewrite Hbuf, Hx. now rewrite app_assoc.
Qed.

(** X20 on a frame cut after its third byte. *)
Lemma X20_frame_split_across_reads_is_decoded_witness :
  let head := [xff; xff] in
  let a := [x02; x00; x01] in
  let b := [xf4; x01; xf4; x00; x03] in
  a <> [] /\ b <> [] /\ length (head ++ a) <= 32
  /\ length (a ++ b) = 8 /\ Temp.item (a ++ b) 0 = 2%Z
  /\ In (Temp.Decoded 50 50 (a ++ b))
        (snd (fst (Temp.cycle (fun _ => Temp.Empty) "t1" b
                     (fst (fst (Temp.cycle (fun _ => Temp.Empty) "t0" (head ++ a)
                                  Temp.initial)))))).
Proof.
  cbv zeta. split; [discriminate|]. split; [discriminate|].
  split; [cbn; lia|]. split; [reflexivity|]. split; [reflexivity|].
  apply (X20_frame_split_across_reads_is_decoded (fun _ => Temp.Empty) "t0" "t1"
           [xff; xff] [x02; x00; x01] [xf4; x01; xf4; x00; x03] Temp.initial);
    solve [discriminate | reflexivity | cbn; lia].
Defined.

(** X21: the two decoded temperatures of any window lie between 0.0 and
    6553.5 (a 16-bit magnitude cannot be negative), and the range check of
    the upload accepts a decoded value exactly when its 16-bit magnitude is
    between 100 and 1000. *)
Theorem X21_decoded_values_and_magnitudes (w : list byte) :
  Py.between 0 6553.5 (Temp.decode_t1 w) = true
  /\ Py.between 0 6553.5 (Temp.decode_t2 w) = true
  /\ Py.between 10 100 (Temp.decode_t1 w)
     = ((100 <=? Temp.be16 (Temp.item w 2) (Temp.item w 3))%Z
        && (Temp.be16 (Temp.item w 2) (Temp.item w 3) <=? 1000)%Z)
  /\ Py.between 10 100 (Temp.decode_t2 w)
     = ((100 <=? Temp.be16 (Temp.item w 4) (Temp.item w 5))%Z
        && (Temp.be16 (Temp.item w 4) (Temp.item w 5) <=? 1000)%Z).
Proof.
  assert (Hraw : forall i j, (0 <= Temp.be16 (Temp.item w i) (Temp.item w j) < 65536)%Z).
  { intros i j. unfold Temp.item. rewrite be16_bytes.
    pose proof (byte_val_range (nth i w x00)). pose proof (byte_val_range (nth j w x00)).
    lia. }
  assert (Hbound : forall raw, (0 <= raw < 65536)%Z ->
                     Py.between 0 6553.5 (Py.div10 raw) = true).
  { intros raw Hr.
    assert (H : Temp.all_from (fun n => Py.between 0 6553.5 (Py.div10 n))
                  0 (Z.to_nat 65536) = true) by (vm_compute; reflexivity).
    apply (all_from_spec _ _ _ H). lia. }
  unfold Temp.decode_t1, Temp.decode_t2.
  split; [apply Hbound, Hraw|]. split; [apply Hbound, Hraw|].
  split; apply between_raw, Hraw.
Qed.

Section Zeros.

Local Open Scope Z_scope.

Lemma digits_val_zeros (ds : Flow.text) :
  Forall (fun c => c = "0"%char) ds -> Flow.digits_val ds = 0.
Proof.
  unfold Flow.digits_val. induction 1 as [|c ds -> _ IH]; [reflexivity|].
  cbn [fold_left]. exact IH.
Qed.

Lemma float_of_text_zeros (t : Flow.text) (x : float) :
  (forall c, In c t -> Flow.is_digit c = true -> c = "0"%char) ->
  Flow.float_of_text t = Flow.Ok x -> x = 0%float.
Proof.
  intros Hz. unfold Flow.float_of_text.
  destruct (span_spec Flow.is_digit t) as [Ht Ha].
  destruct (Flow.span Flow.is_digit t) as [a r]. cbn [fst snd] in *.
  assert (Hzero : forall ds, Forall (fun c => Flow.is_digit c = true) ds ->
                    (forall c, In c ds -> In c t) ->
                    Flow.digits_val ds = 0).
  { intros ds Hd Hin. apply digits_val_zeros. rewrite Forall_forall in *.
    intros c Hc. apply Hz; [now apply Hin|now apply Hd]. }
  destruct r as [|c frac].
  - destruct a as [|d a]; [discriminate|]. intros [= <-].
    rewrite (Hzero (d :: a) Ha); [reflexivity|].
    intros c Hc. rewrite Ht, app_nil_r. exact Hc.
  - destruct (c =? ".")%char; [|discriminate].
    destruct (span_spec Flow.is_digit frac) as [Hf Hb].
    destruct (Flow.span Flow.is_digit frac) as [b r']. cbn [fst snd] in *.
    destruct r' as [|c' r'']; [|destruct (a ++ b)%list; discriminate].
    destruct (a ++ b)%list as [|d ab] eqn:Eab; [discriminate|]. intros [= <-].
    rewrite <- Eab. rewrite (Hzero (a ++ b)%list); [reflexivity| |].
    + apply Forall_app. now split.
    + intros c0 Hc0. rewrite Ht, Hf, app_nil_r.
      apply in_app_or in Hc0 as [H|H]; apply in_or_app; [now left|right; now right].
Qed.

End Zeros.

(** X22: a flow reading written with no digit other than 0 ("0", "0.00",
    "000.0", ...) is stored as 0.0, which the completeness check takes for a
    missing value: after such a line, whatever the accumulator held, a
    velocity line emits nothing. *)
Theorem X22_zero_flow_text_blocks_the_record
  (utc_now : nat -> string) (supabase : Flow.row -> Flow.response)
  (fl vl : string) (num : Flow.text) (v : float)
  (cur : Flow.record) (w : Flow.world) :
  Flow.timestamp_match (Flow.strip (list_ascii_of_string fl)) = None ->
  Flow.flow_match (Flow.strip (list_ascii_of_string fl)) = Some num ->
  (forall c, In c num -> Flow.is_digit c = true -> c = "0"%char) ->
  count_occ ascii_dec num "."%char <= 1 ->
  (exists c, In c num /\ Flow.is_digit c = true) ->
  Flow.classify vl = Flow.Ok (Flow.Velocity v) ->
  Flow.parse_data_line fl cur
  = Flow.Ok (false, {| Flow.timestamp := Flow.timestamp cur; Flow.flow := Some 0%float;
                       Flow.velocity := Flow.velocity cur |})
  /\ Flow.process_lines utc_now supabase [fl; vl] cur w
     = (None, [],
        {| Flow.timestamp := Flow.timestamp cur; Flow.flow := Some 0%float;
           Flow.velocity := Some v |}, w).
Proof.
  intros Ht Hf Hz Hcount Hdigit Hvl.
  destruct (numeric_match_captures _ _ _ _ Hf) as [_ Hnum].
  destruct (proj2 (float_of_text_accepts num Hnum) (conj Hcount Hdigit)) as [x Hx].
  pose proof (float_of_text_zeros num x Hz Hx) as ->.
  assert (Hparse : Flow.parse_data_line fl cur
                   = Flow.Ok (false, {| Flow.timestamp := Flow.timestamp cur;
                                        Flow.flow := Some 0%float;
                                        Flow.velocity := Flow.velocity cur |})).
  { unfold Flow.parse_data_line. now rewrite Ht, Hf, Hx. }
  split; [exact Hparse|].
  rewrite process_lines_cons, Hparse. cbn [andb].
  rewrite (process_lines_velocity _ _ _ _ _ _ _ Hvl). cbv zeta.
  cbn [Flow.timestamp Flow.flow Flow.velocity].
  assert (Ha : Flow.all_values
                 {| Flow.timestamp := Flow.timestamp cur; Flow.flow := Some 0%float;
                    Flow.velocity := Some v |} = false).
  { unfold Flow.all_values. cbn [Flow.timestamp Flow.flow Flow.velocity Flow.num_truthy].
    change (Py.float_truthy 0) with false. now rewrite andb_false_r. }
  rewrite Ha. reflexivity.
Qed.

(** X22 on "Flow 000.0 l/s" followed by "Vel: 0.35 m/s". *)
Lemma X22_zero_flow_text_blocks_the_record_witness :
  let fl := "Flow 000.0 l/s"%string in
  let num := list_ascii_of_string "000.0" in
  Flow.timestamp_match (Flow.strip (list_ascii_of_string fl)) = None
  /\ Flow.flow_match (Flow.strip (list_ascii_of_string fl)) = Some num
  /\ (forall c, In c num -> Flow.is_digit c = true -> c = "0"%char)
  /\ count_occ ascii_dec num "."%char <= 1
  /\ (exists c, In c num /\ Flow.is_digit c = true)
  /\ Flow.classify "Vel: 0.35 m/s" = Flow.Ok (Flow.Velocity 0.35)
  /\ Flow.process_lines (fun _ => "now"%string) (fun _ => Flow.Data)
       [fl; "Vel: 0.35 m/s"%string]
       {| Flow.timestamp := Some "2025-01-01T00:00:00+07:00"%string;
          Flow.flow := Some 1.5%float; Flow.velocity := None |} Flow.new_world
     = (None, [],
        {| Flow.timestamp := Some "2025-01-01T00:00:00+07:00"%string;
           Flow.flow := Some 0%float; Flow.velocity := Some 0.35%float |},
        Flow.new_world).
Proof.
  cbv zeta.
  assert (Ht : Flow.timestamp_match (Flow.strip (list_ascii_of_string "Flow 000.0 l/s")) = None)
    by reflexivity.
  assert (Hf : Flow.flow_match (Flow.strip (list_ascii_of_string "Flow 000.0 l/s"))
               = Some (list_ascii_of_string "000.0")) by reflexivity.
  assert (Hz : forall c, In c (list_ascii_of_string "000.0") ->
                         Flow.is_digit c = true -> c = "0"%char).
  { cbn [list_ascii_of_string In]. intros c [<-|[<-|[<-|[<-|[<-|[]]]]]] H;
      solve [reflexivity | discriminate H]. }
  assert (Hc : count_occ ascii_dec (list_ascii_of_string "000.0") "."%char <= 1)
    by (vm_compute; lia).
  assert (Hd : exists c, In c (list_ascii_of_string "000.0") /\ Flow.is_digit c = true)
    by (exists "0"%char; split; [now left|reflexivity]).
  assert (Hv : Flow.classify "Vel: 0.35 m/s" = Flow.Ok (Flow.Velocity 0.35))
    by (vm_compute; reflexivity).
  split; [exact Ht|]. split; [exact Hf|]. split; [exact Hz|]. split; [exact Hc|].
  split; [exact Hd|]. split; [exact Hv|].
  exact (proj2 (X22_zero_flow_text_blocks_the_record
                  (fun _ => "now"%string) (fun _ => Flow.Data) _ _ _ _
                  {| Flow.timestamp := Some "2025-01-01T00:00:00+07:00"%string;
                     Flow.flow := Some 1.5%float; Flow.velocity := None |}
                  Flow.new_world Ht Hf Hz Hc Hd Hv)).
Defined.
